(** * PINN trainer (pinn.py): a shallow embedding and its checked properties

    The Python class [PINN] configures, assembles, stabilises and trains a
    physics-informed network through the DeepXDE engine, and reconstructs an
    extracellular potential with NumPy/SciPy.

    Modelling choices.
    - Python [int] is [Z]; Python/NumPy [float] is IEEE binary64, i.e. Rocq's
      primitive [float] ([nan], signed zeros and infinities included).
    - The object [self] is a record; attributes that only a later method
      creates ([net], [pde_data], [model]) and the attribute [spacing], which
      no method ever assigns, are [option] fields: reading an absent one
      raises [AttributeError], as in Python.
    - The DeepXDE engine is a black box.  Every call made on it is appended to
      a log; the only value read back from it is the first-epoch loss vector
      of a training run, supplied by an oracle indexed by the number of
      training runs already made.
    - Methods are computations in a state-and-exception monad: an exception
      keeps the effects performed before it. *)

From Stdlib Require Import ZArith List String Ascii Bool Lia Floats.
Import ListNotations.

Set Warnings "-inexact-float".

Local Open Scope string_scope.
Local Open Scope list_scope.
Local Open Scope Z_scope.

(** ** Python values *)

(** Opaque objects handed through to the engine (geometry, sample data,
    anchors, checkpoint path, tracked variables). *)
Definition handle := string.

(** Exceptions that the modelled code can raise, by Python class. *)
Inductive exn : Type :=
| ValueError (msg : string)
| UnboundLocalError (name : string)
| AttributeError (attr : string).

Definition exn_class (e : exn) : string :=
  match e with
  | ValueError _ => "ValueError"
  | UnboundLocalError _ => "UnboundLocalError"
  | AttributeError _ => "AttributeError"
  end.

(** Truthiness of [self.inverse]: [None] and the empty string are falsy. *)
Definition truthy (inv : option string) : bool :=
  match inv with
  | None => false
  | Some EmptyString => false
  | Some (String _ _) => true
  end.

(** ['d' in s] for a string [s]. *)
Fixpoint contains_char (c : ascii) (s : string) : bool :=
  match s with
  | EmptyString => false
  | String a rest => Ascii.eqb a c || contains_char c rest
  end.

(** [self.inverse and 'd' in self.inverse] *)
Definition inverse_has_d (inv : option string) : bool :=
  match inv with
  | None => false
  | Some s => truthy inv && contains_char "d"%char s
  end.

(** Conversion of a Python [int] to binary64 (exact below 2^53). *)
Definition float_of_Z (z : Z) : float :=
  match z with
  | Z0 => PrimFloat.of_uint63 (Uint63.of_Z 0)
  | Zpos _ => PrimFloat.of_uint63 (Uint63.of_Z z)
  | Zneg _ => PrimFloat.opp (PrimFloat.of_uint63 (Uint63.of_Z (- z)))
  end.

(** Python's builtin [max] over a sequence: the first item is kept until a
    later item compares strictly greater; the empty sequence raises. *)
Definition py_max (l : list float) : exn + float :=
  match l with
  | [] => inl (ValueError "max() arg is an empty sequence")
  | x :: xs => inr (fold_left (fun m y => if PrimFloat.ltb m y then y else m) xs x)
  end.

(** ** The dynamics collaborator *)

Inductive residual : Type := pde_1D | pde_2D | pde_2D_heter | pde_2D_heter_forward.
Inductive transform : Type := modify_heter | modify_inv_heter.

Definition matrix := list (list float).

(** [D]: a scalar or a two-dimensional array. *)
Inductive diffusion : Type :=
| DScalar (d : float)
| DArray (a : matrix).

Module Dynamics.
Record t : Type := mk {
  D : diffusion;
  elecpos : list (Z * Z);   (* the K columns of the 2 x K array *)
  max_x : nat;
  max_y : nat;
  max_t : nat;
  spacing : float
}.
End Dynamics.

(** ** The trainer object *)

Record PINN : Type := mkPINN {
  dynamics : Dynamics.t;
  dim : Z;
  heter : bool;
  inverse : option string;
  input : Z;
  num_hidden_layers : Z;
  hidden_layer_size : Z;
  output : Z;
  num_domain : Z;
  num_boundary : Z;
  num_test : Z;
  MAX_MODEL_INIT : Z;
  MAX_LOSS : Z;
  epochs_init : Z;
  epochs_main : Z;
  lr : float;
  net : option (list Z);
  pde_data : option residual;
  model : option nat;
  spacing : option float
}.

(** [modify_2d_const] *)
Definition modify_2d_const (self : PINN) : PINN :=
  let self :=
    if dim self =? 2 then
      mkPINN (dynamics self) (dim self) (heter self) (inverse self)
             3 5 60 (output self)
             40000 4000 (num_test self)
             (MAX_MODEL_INIT self) (MAX_LOSS self) (epochs_init self) 150000 (lr self)
             (net self) (pde_data self) (model self) (spacing self)
    else self in
  let self :=
    if heter self then
      mkPINN (dynamics self) (dim self) (heter self) (inverse self)
             (input self) (num_hidden_layers self) (hidden_layer_size self) 3
             (num_domain self) (num_boundary self) (num_test self)
             (MAX_MODEL_INIT self) (MAX_LOSS self) (epochs_init self) (epochs_main self) (lr self)
             (net self) (pde_data self) (model self) (spacing self)
    else self in
  if truthy (inverse self) then
    mkPINN (dynamics self) (dim self) (heter self) (inverse self)
           (input self) (num_hidden_layers self) (hidden_layer_size self) (output self)
           (num_domain self) (num_boundary self) (num_test self)
           (MAX_MODEL_INIT self) (MAX_LOSS self) (epochs_init self) (epochs_main self) 0.0001%float
           (net self) (pde_data self) (model self) (spacing self)
  else self.

(** [__init__] *)
Definition __init__ (dynamics : Dynamics.t) (dim : Z) (heter : bool)
    (inverse : option string) : PINN :=
  modify_2d_const
    (mkPINN dynamics dim heter inverse
            2 4 32 (2 + 1)
            20000 1000 1000
            16 4 15000 1000 0.0005%float
            None None None None).

(** ** The engine log and the method monad *)

Record callback : Type := VariableValue {
  cb_params : handle;
  period : Z;
  filename : string
}.

Inductive call : Type :=
| FNN (layer_sizes : list Z) (activation initializer : string)
| apply_output_transform (f : transform)
| TimePDE (geomtime : handle) (pde : residual) (input_data : handle)
          (n_domain n_boundary : Z) (anchors : handle) (n_test : Z)
| Model
| compile (optimizer : string) (rate : option float) (loss_weights : option (list Z))
| train_run (epochs : option Z) (model_save_path : option handle)
            (callbacks : list callback).

(** The state threaded through a method: the object and the calls made on
    the engine so far, oldest first. *)
Record world : Type := mkWorld {
  self_of : PINN;
  trace : list call
}.

Inductive outcome (A : Type) : Type :=
| Return (a : A)
| Raise (e : exn)
| OutOfFuel.
Arguments Return {A} a.
Arguments Raise {A} e.
Arguments OutOfFuel {A}.

Definition M (A : Type) : Type := world -> outcome A * world.

Definition ret {A} (a : A) : M A := fun w => (Return a, w).
Definition raise {A} (e : exn) : M A := fun w => (Raise e, w).
Definition bind {A B} (c : M A) (k : A -> M B) : M B :=
  fun w =>
    match c w with
    | (Return a, w') => k a w'
    | (Raise e, w') => (Raise e, w')
    | (OutOfFuel, w') => (OutOfFuel, w')
    end.

Declare Scope py_scope.
Delimit Scope py_scope with py.
Notation "x <- c ;; k" := (bind c (fun x => k))
  (at level 61, c at next level, right associativity) : py_scope.
Notation "c ;; k" := (bind c (fun _ => k))
  (at level 61, right associativity) : py_scope.
Local Open Scope py_scope.

Definition get_self : M PINN := fun w => (Return (self_of w), w).
Definition set_self (p : PINN) : M unit := fun w => (Return tt, mkWorld p (trace w)).
Definition emit (c : call) : M unit :=
  fun w => (Return tt, mkWorld (self_of w) (trace w ++ [c])).

(** Reading an attribute that may not exist yet. *)
Definition attr {A} (name : string) (field : PINN -> option A) : M A :=
  fun w =>
    match field (self_of w) with
    | Some a => (Return a, w)
    | None => (Raise (AttributeError name), w)
    end.

(** Reading a local variable that some branches leave unassigned. *)
Definition local {A} (name : string) (v : option A) : M A :=
  match v with
  | Some a => ret a
  | None => raise (UnboundLocalError name)
  end.

Definition lift {A} (r : exn + A) : M A :=
  match r with
  | inr a => ret a
  | inl e => raise e
  end.

Definition set_net (n : list Z) (p : PINN) : PINN :=
  mkPINN (dynamics p) (dim p) (heter p) (inverse p)
         (input p) (num_hidden_layers p) (hidden_layer_size p) (output p)
         (num_domain p) (num_boundary p) (num_test p)
         (MAX_MODEL_INIT p) (MAX_LOSS p) (epochs_init p) (epochs_main p) (lr p)
         (Some n) (pde_data p) (model p) (spacing p).

Definition set_pde_data (d : residual) (p : PINN) : PINN :=
  mkPINN (dynamics p) (dim p) (heter p) (inverse p)
         (input p) (num_hidden_layers p) (hidden_layer_size p) (output p)
         (num_domain p) (num_boundary p) (num_test p)
         (MAX_MODEL_INIT p) (MAX_LOSS p) (epochs_init p) (epochs_main p) (lr p)
         (net p) (Some d) (model p) (spacing p).

Definition set_model (m : nat) (p : PINN) : PINN :=
  mkPINN (dynamics p) (dim p) (heter p) (inverse p)
         (input p) (num_hidden_layers p) (hidden_layer_size p) (output p)
         (num_domain p) (num_boundary p) (num_test p)
         (MAX_MODEL_INIT p) (MAX_LOSS p) (epochs_init p) (epochs_main p) (lr p)
         (net p) (pde_data p) (Some m) (spacing p).

Definition update (f : PINN -> PINN) : M unit :=
  fun w => (Return tt, mkWorld (f (self_of w)) (trace w)).

Definition is_train (c : call) : bool :=
  match c with train_run _ _ _ => true | _ => false end.
Definition is_model (c : call) : bool :=
  match c with Model => true | _ => false end.

(** Number of training runs, and of model constructions, in a log. *)
Definition trainings (l : list call) : nat := List.length (filter is_train l).
Definition models (l : list call) : nat := List.length (filter is_model l).
Arguments trainings : simpl never.
Arguments models : simpl never.

(** [dde.Model(self.pde_data, self.net)] stored into [self.model]. *)
Definition new_model : M unit :=
  _ <- attr "pde_data" pde_data ;;
  _ <- attr "net" net ;;
  w <- (fun w => (Return w, w)) ;;
  emit Model ;;
  update (set_model (models (trace w))).

(** [self.model.compile(...)] *)
Definition compile_model (optimizer : string) (rate : option float)
    (loss_weights : option (list Z)) : M unit :=
  _ <- attr "model" model ;;
  emit (compile optimizer rate loss_weights).

(** [self.model.train(...)]: the value is the index of this training run,
    which stands for the loss history and train state it returns. *)
Definition train_model (epochs : option Z) (model_save_path : option handle)
    (callbacks : list callback) : M nat :=
  _ <- attr "model" model ;;
  n <- (fun w => (Return (trainings (trace w)), w)) ;;
  emit (train_run epochs model_save_path callbacks) ;;
  ret n.

(** ** Model assembly: [define_pinn] *)

Definition define_pinn (geomtime input_data observe_train : handle) : M Z :=
  self <- get_self ;;
  let layers := [input self]
                ++ repeat (hidden_layer_size self) (Z.to_nat (num_hidden_layers self))
                ++ [output self] in
  emit (FNN layers "tanh" "Glorot uniform") ;;
  update (set_net layers) ;;
  pde <- (if dim self =? 1 then
            ret (Some pde_1D)
          else if (dim self =? 2) && heter self then
            if inverse_has_d (inverse self) then
              emit (apply_output_transform modify_inv_heter) ;;
              ret (Some pde_2D_heter)
            else
              emit (apply_output_transform modify_heter) ;;
              ret (Some pde_2D_heter_forward)
          else if (dim self =? 2) && negb (heter self) then
            ret (Some pde_2D)
          else ret None) ;;
  pde <- local "pde" pde ;;
  emit (TimePDE geomtime pde input_data (num_domain self) (num_boundary self)
                observe_train (num_test self)) ;;
  update (set_pde_data pde) ;;
  new_model ;;
  compile_model "adam" (Some (lr self)) None ;;
  ret 0.

(** ** Stabilised initialisation: [stable_init] *)

(** The engine's answers: [eng n] is [losshistory.loss_train[0]] of the
    training run number [n] (counted from 0 over the whole log). *)
Definition engine := nat -> list float.

(** An engine that replays the given first-epoch loss vectors and answers
    [rest] once they are used up. *)
Definition replay (l : list (list float)) (rest : list float) : engine :=
  fun n => nth n l rest.

(** The loop condition [initial_loss > self.MAX_LOSS or np.isnan(initial_loss)]. *)
Definition rejected (self : PINN) (initial_loss : float) : bool :=
  PrimFloat.ltb (float_of_Z (MAX_LOSS self)) initial_loss
  || PrimFloat.is_nan initial_loss.

Definition out_of_fuel {A} : M A := fun w => (OutOfFuel, w).

Definition limit_message : string :=
  "Model initialization phase exceeded the allowed limit".

(** One pass through the loop body up to the new loss: a fresh model on the
    same data and network, compiled and trained for one epoch. *)
Definition retrain (eng : engine) : M float :=
  new_model ;;
  self <- get_self ;;
  compile_model "adam" (Some (lr self)) None ;;
  h <- train_model (Some 1) None [] ;;
  lift (py_max (eng h)).

(** The [while] loop; [fuel] bounds the number of iterations. *)
Fixpoint stable_init_loop (eng : engine) (fuel : nat) (initial_loss : float)
    (num_init : Z) : M unit :=
  self <- get_self ;;
  if rejected self initial_loss then
    match fuel with
    | O => out_of_fuel
    | S fuel' =>
        let num_init := num_init + 1 in
        initial_loss <- retrain eng ;;
        self <- get_self ;;
        if num_init >? MAX_MODEL_INIT self then
          raise (ValueError limit_message)
        else stable_init_loop eng fuel' initial_loss num_init
    end
  else ret tt.

Definition stable_init (eng : engine) (fuel : nat) : M Z :=
  h <- train_model (Some 1) None [] ;;
  initial_loss <- lift (py_max (eng h)) ;;
  stable_init_loop eng fuel initial_loss 1 ;;
  ret 0.

(** ** Training schedules *)

(** ["variables_" + self.inverse + ".dat"], evaluated only where
    [self.inverse] is truthy, hence a string. *)
Definition variables_file (inv : option string) : string :=
  match inv with
  | Some s => ("variables_" ++ s ++ ".dat")%string
  | None => EmptyString
  end.

Definition train_1_phase (out_path params : handle) : M nat :=
  self <- get_self ;;
  if truthy (inverse self) then
    let variable := VariableValue params 1000 (variables_file (inverse self)) in
    train_model (Some (epochs_main self)) (Some out_path) [variable]
  else
    train_model (Some (epochs_main self)) (Some out_path) [].

Definition init_weights : list Z := [0; 0; 0; 0; 1].

Definition train_3_phase (out_path params : handle) : M nat :=
  self <- get_self ;;
  if truthy (inverse self) then
    let variable := VariableValue params 1000 (variables_file (inverse self)) in
    compile_model "adam" (Some 0.0005%float) (Some init_weights) ;;
    _ <- train_model (Some (epochs_init self)) (Some out_path) [variable] ;;
    self <- get_self ;;
    compile_model "adam" (Some (lr self)) None ;;
    _ <- train_model (Some (epochs_main self)) (Some out_path) [variable] ;;
    compile_model "L-BFGS-B" None None ;;
    train_model None (Some out_path) [variable]
  else
    compile_model "adam" (Some 0.0005%float) (Some init_weights) ;;
    _ <- train_model (Some (epochs_init self)) (Some out_path) [] ;;
    self <- get_self ;;
    compile_model "adam" (Some (lr self)) None ;;
    _ <- train_model (Some (epochs_main self)) (Some out_path) [] ;;
    compile_model "L-BFGS-B" None None ;;
    train_model None (Some out_path) [].

(** [train]: the result is the live model and the index of the last
    training run (its loss history and train state). *)
Definition train (eng : engine) (fuel : nat) (out_path params : handle)
    : M (nat * nat) :=
  stable_init eng fuel ;;
  self <- get_self ;;
  r <- (if dim self =? 1 then
          h <- train_1_phase out_path params ;; ret (Some h)
        else if dim self =? 2 then
          h <- train_3_phase out_path params ;; ret (Some h)
        else ret None) ;;
  m <- attr "model" model ;;
  h <- local "losshistory" r ;;
  ret (m, h).

(** ** Arrays

    A two-dimensional array is a list of rows.  Every NumPy/SciPy operation
    is given by the shape of its result and the formula of an entry. *)

Local Open Scope nat_scope.

Definition nrows (m : matrix) : nat := List.length m.
Definition ncols (m : matrix) : nat := List.length (hd [] m).

Definition mat_get (m : matrix) (i j : nat) : float :=
  nth j (nth i m []) 0%float.

Definition mat_build (r c : nat) (f : nat -> nat -> float) : matrix :=
  map (fun i => map (fun j => f i j) (seq 0 c)) (seq 0 r).

(** Elementwise binary operation on arrays of one shape. *)
Definition mat_map2 (op : float -> float -> float) (a b : matrix) : matrix :=
  mat_build (nrows a) (ncols a) (fun i j => op (mat_get a i j) (mat_get b i j)).

Definition mat_scale (c : float) (a : matrix) : matrix :=
  mat_build (nrows a) (ncols a) (fun i j => PrimFloat.mul c (mat_get a i j)).

(** [a[1:-1, 1:-1]] *)
Definition trim (a : matrix) : matrix :=
  mat_build (nrows a - 2) (ncols a - 2) (fun i j => mat_get a (i + 1) (j + 1)).

(** [a.T] *)
Definition transpose (a : matrix) : matrix :=
  mat_build (ncols a) (nrows a) (fun i j => mat_get a j i).

(** [np.ones([X, Y])] *)
Definition ones (X Y : nat) : matrix := mat_build X Y (fun _ _ => 1%float).

(** [np.zeros([K, T])] *)
Definition zeros (K T : nat) : matrix := mat_build K T (fun _ _ => 0%float).

(** [a[k, t] = v]; an index out of range leaves the array as it is (the
    loops below never produce one). *)
Fixpoint list_set {A} (n : nat) (x : A) (l : list A) : list A :=
  match l, n with
  | [], _ => []
  | _ :: tl, O => x :: tl
  | h :: tl, S n' => h :: list_set n' x tl
  end.

Definition mat_set (k t : nat) (v : float) (m : matrix) : matrix :=
  list_set k (list_set t v (nth k m [])) m.

(** [np.arange(a, b)] *)
Definition arange (a b : Z) : list Z :=
  map (fun i => (a + Z.of_nat i)%Z) (seq 0 (Z.to_nat (b - a))).

(** One entry of [np.gradient] along an axis of length [n] with uniform
    spacing [h] (first-order one-sided differences at both ends, central
    differences inside); [f] reads the array along that axis. *)
Definition gradient_entry (h : float) (n : nat) (f : nat -> float) (i : nat) : float :=
  if i =? 0 then
    PrimFloat.div (PrimFloat.sub (f 1) (f 0)) h
  else if i =? n - 1 then
    PrimFloat.div (PrimFloat.sub (f (n - 1)) (f (n - 2))) h
  else
    PrimFloat.div (PrimFloat.sub (f (i + 1)) (f (i - 1))) (PrimFloat.mul 2 h).

Definition gradient_message : string :=
  "Shape of array too small to calculate a numerical gradient, at least (edge_order + 1) elements are required.".

(** The derivative of a two-dimensional array along axis 0 and along
    axis 1. *)
Definition gradient_axis0 (a : matrix) (h : float) : matrix :=
  mat_build (nrows a) (ncols a)
    (fun i j => gradient_entry h (nrows a) (fun i' => mat_get a i' j) i).

Definition gradient_axis1 (a : matrix) (h : float) : matrix :=
  mat_build (nrows a) (ncols a)
    (fun i j => gradient_entry h (ncols a) (fun j' => mat_get a i j') j).

(** [np.gradient(a, h, h)] and [np.gradient(a, h)] of a two-dimensional
    array: both derivatives, or the error of an axis shorter than 2. *)
Definition gradient (a : matrix) (h : float) : exn + (matrix * matrix) :=
  if (nrows a <? 2) || (ncols a <? 2) then
    inl (ValueError gradient_message)
  else
    inr (gradient_axis0 a h, gradient_axis1 a h).

(** One entry of [correlate1d(., [1, -2, 1], mode='nearest')]: the centre
    times -2, plus the sum of the two neighbours; beyond an edge the
    neighbour is the edge entry. *)
Definition second_difference (n : nat) (f : nat -> float) (i : nat) : float :=
  let left := f (i - 1) in
  let right := if i + 1 <? n then f (i + 1) else f i in
  PrimFloat.add (PrimFloat.mul (f i) (-2)%float)
                (PrimFloat.mul (PrimFloat.add left right) 1%float).

(** [scipy.ndimage.laplace(a, mode='nearest')]: the second difference along
    axis 0 plus the one along axis 1. *)
Definition laplace (a : matrix) : matrix :=
  mat_build (nrows a) (ncols a)
    (fun i j =>
       PrimFloat.add
         (second_difference (nrows a) (fun i' => mat_get a i' j) i)
         (second_difference (ncols a) (fun j' => mat_get a i j') j)).

(** [.sum()] of a vector, accumulated from the left (NumPy adds the entries
    of a long vector pairwise; nothing below depends on the order). *)
Definition fsum (l : list float) : float := fold_left PrimFloat.add l 0%float.

(** [np.trapezoid(y)] with the default [dx = 1.0]:
    [(d * (y[1:] + y[:-1]) / 2.0).sum()]. *)
Definition trapezoid (y : list float) : float :=
  fsum (map (fun i =>
               PrimFloat.div
                 (PrimFloat.mul 1%float
                    (PrimFloat.add (nth (i + 1) y 0%float) (nth i y 0%float)))
                 2%float)
            (seq 0 (List.length y - 1))).

(** [np.trapezoid(a, axis=0)]: one integral per column. *)
Definition trapezoid_axis0 (a : matrix) : list float :=
  map (fun j => trapezoid (map (fun i => mat_get a i j) (seq 0 (nrows a))))
      (seq 0 (ncols a)).

(** ** Potential-field reconstruction: [num_integration] *)

Definition reshape_message : string := "cannot reshape array".

(** [v_pred.reshape(T, X, Y)] of a flat array, in row-major order. *)
Definition reshape3 (T X Y : nat) (v : list float) : exn + (nat -> nat -> nat -> float) :=
  if List.length v =? T * X * Y then
    inr (fun t x y => nth ((t * X + x) * Y + y) v 0%float)
  else inl (ValueError reshape_message).

(** [np.transpose(v, (1, 2, 0))] followed by [v[:, :, t]]: the X x Y array
    of the values at time [t]. *)
Definition time_slice (X Y : nat) (v : nat -> nat -> nat -> float) (t : nat) : matrix :=
  let transposed := fun x y t' => v t' x y in
  mat_build X Y (fun x y => transposed x y t).

(** The branches that assign [D_array]; neither applies to an array of
    another shape, which leaves the local unassigned. *)
Definition diffusion_array (d : diffusion) (X Y : nat) : option matrix :=
  match d with
  | DScalar c => Some (mat_scale c (ones X Y))
  | DArray a =>
      if (nrows a =? X + 2) && (ncols a =? Y + 2) then Some (trim a) else None
  end.

(** [du] of one time step. *)
Definition source_term (D_array Dx Dy gx gy v_t : matrix) : matrix :=
  mat_map2 PrimFloat.add
    (mat_map2 PrimFloat.add
       (mat_map2 PrimFloat.mul (mat_scale (float_of_Z 4) D_array) (laplace v_t))
       (mat_map2 PrimFloat.mul Dx gx))
    (mat_map2 PrimFloat.mul Dy gy).

(** [np.meshgrid(xs, ys)] with the default indexing: both results have one
    row per entry of [ys] and one column per entry of [xs]. *)
Definition meshgrid (xs ys : list Z) : list (list Z) * list (list Z) :=
  (map (fun _ => xs) ys, map (fun y => map (fun _ => y) xs) ys).

(** [np.sqrt(matx**2 + maty**2)] *)
Definition kernel_radius (matx maty : list (list Z)) : matrix :=
  map (fun rows =>
         map (fun p => PrimFloat.sqrt (float_of_Z (fst p ^ 2 + snd p ^ 2)%Z))
             (combine (fst rows) (snd rows)))
      (combine matx maty).

(** [distance] for electrode [(ex, ey)]: the kernel radius of the grid
    coordinates [2 .. X-1] and [2 .. Y-1] minus the electrode's, transposed. *)
Definition distance (X Y : nat) (ex ey : Z) : matrix :=
  let xs := map (fun x => (x - ex)%Z) (arange 2 (Z.of_nat X)) in
  let ys := map (fun y => (y - ey)%Z) (arange 2 (Z.of_nat Y)) in
  let '(matx, maty) := meshgrid xs ys in
  transpose (kernel_radius matx maty).

(** [du[1:-1, 1:-1] / distance] *)
Definition quotient (du : matrix) (X Y : nat) (e : Z * Z) : matrix :=
  mat_map2 PrimFloat.div (trim du) (distance X Y (fst e) (snd e)).

(** The value stored for one electrode at one time step: [-sum]. *)
Definition electrode_value (du : matrix) (X Y : nat) (e : Z * Z) : float :=
  PrimFloat.opp (trapezoid (trapezoid_axis0 (quotient du X Y e))).

(** The inner loop over the electrodes at time step [t]. *)
Definition electrode_loop (du : matrix) (X Y : nat) (elecpos : list (Z * Z))
    (t : nat) (phie_pred : matrix) : matrix :=
  fold_left
    (fun phie k => mat_set k t (electrode_value du X Y (nth k elecpos (0, 0)%Z)) phie)
    (seq 0 (List.length elecpos)) phie_pred.

Definition sum_bind {A B} (r : exn + A) (k : A -> exn + B) : exn + B :=
  match r with
  | inl e => inl e
  | inr a => k a
  end.

Definition sum_local {A} (name : string) (v : option A) : exn + A :=
  match v with
  | Some a => inr a
  | None => inl (UnboundLocalError name)
  end.

Definition sum_attr {A} (name : string) (v : option A) : exn + A :=
  match v with
  | Some a => inr a
  | None => inl (AttributeError name)
  end.

(** The body of the loop over the time steps. *)
Definition time_step (self : PINN) (X Y : nat) (v : nat -> nat -> nat -> float)
    (D_array Dx Dy : matrix) (elecpos : list (Z * Z)) (t : nat)
    (phie_pred : matrix) : exn + matrix :=
  let v_t := time_slice X Y v t in
  sum_bind (sum_attr "spacing" (spacing self)) (fun h =>
  sum_bind (gradient v_t h) (fun '(gx, gy) =>
  let du := source_term D_array Dx Dy gx gy v_t in
  inr (electrode_loop du X Y elecpos t phie_pred))).

(** [num_integration(self, t, v_pred)]; the parameter [t] is shadowed by the
    loop variable and never read. *)
Definition num_integration (self : PINN) (v_pred : list float) : exn + matrix :=
  let dyn := dynamics self in
  let X := Dynamics.max_x dyn in
  let Y := Dynamics.max_y dyn in
  let tend := Dynamics.max_t dyn in
  sum_bind (reshape3 tend X Y v_pred) (fun v =>
  sum_bind (sum_local "D_array" (diffusion_array (Dynamics.D dyn) X Y)) (fun D_array =>
  sum_bind (sum_attr "spacing" (spacing self)) (fun h =>
  sum_bind (gradient D_array h) (fun '(Dx, Dy) =>
  let elecpos := Dynamics.elecpos dyn in
  let phie_pred := zeros (List.length elecpos) tend in
  fold_left
    (fun acc t =>
       sum_bind acc (time_step self X Y v D_array Dx Dy elecpos t))
    (seq 0 tend) (inr phie_pred))))).

(** ** The specification's view, for comparison with the code *)

Local Open Scope Z_scope.

(** The residual-selection table of the specification, row by row: the
    residual and the output transform (if any) of a configuration, [None]
    for a configuration that the table does not list. *)
Definition residual_table (dimension : Z) (heterogeneous inverse_contains_d : bool)
    : option (residual * option transform) :=
  if dimension =? 1 then Some (pde_1D, None)
  else if dimension =? 2 then
    match heterogeneous, inverse_contains_d with
    | false, _ => Some (pde_2D, None)
    | true, true => Some (pde_2D_heter, Some modify_inv_heter)
    | true, false => Some (pde_2D_heter_forward, Some modify_heter)
    end
  else None.

(** What a log says about the assembly: the residuals bound into sampling
    data objects and the output transforms applied, in order. *)
Definition residuals (l : list call) : list residual :=
  flat_map (fun c => match c with TimePDE _ r _ _ _ _ _ => [r] | _ => [] end) l.

Definition transforms (l : list call) : list transform :=
  flat_map (fun c => match c with apply_output_transform f => [f] | _ => [] end) l.

Definition option_list {A} (o : option A) : list A :=
  match o with
  | Some a => [a]
  | None => []
  end.

(** The layer widths [[input] + [hidden] * layers + [output]]. *)
Definition layer_sizes_of (self : PINN) : list Z :=
  [input self]
  ++ repeat (hidden_layer_size self) (Z.to_nat (num_hidden_layers self))
  ++ [output self].

(** The observers of the training phases: the variable tracker when
    [self.inverse] is truthy, none otherwise. *)
Definition observers (self : PINN) (params : handle) : list callback :=
  match inverse self with
  | Some (String a s) =>
      [VariableValue params 1000 ("variables_" ++ String a s ++ ".dat")%string]
  | _ => []
  end.

Ltac run_monad :=
  unfold define_pinn, new_model, compile_model, train_model, attr, local, lift,
    bind, ret, raise, get_self, set_self, emit, update;
  cbn [self_of trace fst snd pde_data net model set_net set_pde_data set_model
       dim heter inverse lr].

(** The log of a successful assembly that selects residual [r] and the
    transforms [tr]. *)
Definition assembly_log (p : PINN) (g i o : handle) (r : residual)
    (tr : option transform) : list call :=
  [FNN (layer_sizes_of p) "tanh" "Glorot uniform"]
  ++ map apply_output_transform (option_list tr)
  ++ [TimePDE g r i (num_domain p) (num_boundary p) o (num_test p);
      Model;
      compile "adam" (Some (lr p)) None].

(** A trainer on which [define_pinn] has run: the sampling data, the
    network and the model exist. *)
Definition assembled (p : PINN) : bool :=
  match pde_data p, net p, model p with
  | Some _, Some _, Some _ => true
  | _, _, _ => false
  end.

(** An outcome other than running out of fuel. *)
Definition terminated {A} (r : outcome A) : Prop :=
  match r with
  | OutOfFuel => False
  | _ => True
  end.

(** The three engine calls of one reinitialisation. *)
Definition reinit_calls (p : PINN) : list call :=
  [Model; compile "adam" (Some (lr p)) None; train_run (Some 1) None []].

(** The three phases as the specification lists them: warmup (Adam at
    5e-4 with loss weights [0,0,0,0,1], [epochs_init] epochs), main (Adam at
    the configured rate, default weights, [epochs_main] epochs) and refine
    (L-BFGS-B, no epoch budget), each a compile followed by a training run
    that carries the observers. *)
Definition spec_three_phase (p : PINN) (out_path params : handle) : list call :=
  [compile "adam" (Some 0.0005%float) (Some [0; 0; 0; 0; 1]);
   train_run (Some (epochs_init p)) (Some out_path) (observers p params);
   compile "adam" (Some (lr p)) None;
   train_run (Some (epochs_main p)) (Some out_path) (observers p params);
   compile "L-BFGS-B" None None;
   train_run None (Some out_path) (observers p params)].

(** The single phase of the 1D schedule. *)
Definition spec_one_phase (p : PINN) (out_path params : handle) : list call :=
  [train_run (Some (epochs_main p)) (Some out_path) (observers p params)].

(** An array of [K] rows of [T] entries each. *)
Definition has_shape (K T : nat) (m : matrix) : Prop :=
  List.length m = K /\ forall k, (k < K)%nat -> List.length (nth k m []) = T.

(** [du] at time step [t], once the gradients exist. *)
Definition source_at (h : float) (X Y : nat) (v : nat -> nat -> nat -> float)
    (D_array Dx Dy : matrix) (t : nat) : matrix :=
  let v_t := time_slice X Y v t in
  source_term D_array Dx Dy (gradient_axis0 v_t h) (gradient_axis1 v_t h) v_t.

(** ** Sample inputs *)

(** A 4 x 4 grid, one time step, one electrode on the grid node (2, 2),
    a scalar diffusion coefficient, and a spacing supplied by the dynamics. *)
Definition sample_dynamics : Dynamics.t :=
  Dynamics.mk (DScalar 1%float) [(2, 2)] 4 4 1 1%float.

(** The field that is 1 everywhere. *)
Definition uniform_field : list float := repeat 1%float 16.

(** A trainer on which a caller has set the attribute [spacing] by hand. *)
Definition with_spacing (h : float) (p : PINN) : PINN :=
  mkPINN (dynamics p) (dim p) (heter p) (inverse p)
         (input p) (num_hidden_layers p) (hidden_layer_size p) (output p)
         (num_domain p) (num_boundary p) (num_test p)
         (MAX_MODEL_INIT p) (MAX_LOSS p) (epochs_init p) (epochs_main p) (lr p)
         (net p) (pde_data p) (model p) (Some h).

(** A trainer whose dynamics collaborator supplies another spacing. *)
Definition with_dynamics_spacing (s : float) (p : PINN) : PINN :=
  let dyn := dynamics p in
  mkPINN (Dynamics.mk (Dynamics.D dyn) (Dynamics.elecpos dyn) (Dynamics.max_x dyn)
                      (Dynamics.max_y dyn) (Dynamics.max_t dyn) s)
         (dim p) (heter p) (inverse p)
         (input p) (num_hidden_layers p) (hidden_layer_size p) (output p)
         (num_domain p) (num_boundary p) (num_test p)
         (MAX_MODEL_INIT p) (MAX_LOSS p) (epochs_init p) (epochs_main p) (lr p)
         (net p) (pde_data p) (model p) (spacing p).

(** A trainer on which a caller has set another limit of initialisations. *)
Definition with_limit (n : Z) (p : PINN) : PINN :=
  mkPINN (dynamics p) (dim p) (heter p) (inverse p)
         (input p) (num_hidden_layers p) (hidden_layer_size p) (output p)
         (num_domain p) (num_boundary p) (num_test p)
         n (MAX_LOSS p) (epochs_init p) (epochs_main p) (lr p)
         (net p) (pde_data p) (model p) (spacing p).

(** A trainer whose dynamics collaborator has other electrodes. *)
Definition with_elecpos (el : list (Z * Z)) (p : PINN) : PINN :=
  let dyn := dynamics p in
  mkPINN (Dynamics.mk (Dynamics.D dyn) el (Dynamics.max_x dyn)
                      (Dynamics.max_y dyn) (Dynamics.max_t dyn)
                      (Dynamics.spacing dyn))
         (dim p) (heter p) (inverse p)
         (input p) (num_hidden_layers p) (hidden_layer_size p) (output p)
         (num_domain p) (num_boundary p) (num_test p)
         (MAX_MODEL_INIT p) (MAX_LOSS p) (epochs_init p) (epochs_main p) (lr p)
         (net p) (pde_data p) (model p) (spacing p).

(** The shapes of [D] for which a branch assigns [D_array]. *)
Definition diffusion_fits (d : diffusion) (X Y : nat) : bool :=
  match d with
  | DScalar _ => true
  | DArray a => (nrows a =? X + 2)%nat && (ncols a =? Y + 2)%nat
  end.

(** The update of Python's [max]: keep the running maximum unless the next
    item compares greater. *)
Definition max_step (m y : float) : float := if PrimFloat.ltb m y then y else m.

(** A 4 x 4 grid with two time steps and one electrode off the grid
    interior, and a frame of sixteen values [a * i * i]. *)
Definition two_step_dynamics : Dynamics.t :=
  Dynamics.mk (DScalar 1%float) [(0, 0)] 4 4 2 1%float.

Definition ramp (a : Z) : list float :=
  map (fun i => float_of_Z (Z.of_nat (i * i) * a)) (seq 0 16).

(** A trainer as constructed, before and after [define_pinn]. *)
Definition fresh_world (d : Z) (h : bool) (inv : option string) : world :=
  mkWorld (__init__ sample_dynamics d h inv) [].

Definition assembled_world (d : Z) (h : bool) (inv : option string) : world :=
  snd (define_pinn "geomtime" "input_data" "observe_train" (fresh_world d h inv)).

(** The world in which [stable_init] has accepted the first attempt of an
    assembled trainer. *)
Definition accepted_world (d : Z) (h : bool) (inv : option string) : world :=
  mkWorld (self_of (assembled_world d h inv))
          (trace (assembled_world d h inv) ++ [train_run (Some 1) None []]).

(** * Properties *)

(** ** Configuration *)

Lemma init_closed_form (dyn : Dynamics.t) (d : Z) (h : bool) (inv : option string) :
  __init__ dyn d h inv
  = mkPINN dyn d h inv
           (if d =? 2 then 3 else 2) (if d =? 2 then 5 else 4)
           (if d =? 2 then 60 else 32) 3
           (if d =? 2 then 40000 else 20000) (if d =? 2 then 4000 else 1000)
           1000 16 4 15000 (if d =? 2 then 150000 else 1000)
           (if truthy inv then 0.0001%float else 0.0005%float)
           None None None None.
Proof.
  unfold __init__, modify_2d_const. cbn [dim].
  destruct (d =? 2), h, inv as [[|a s]|]; reflexivity.
Qed.

(** C6. The hyperparameters are a total function of (dimension,
    heterogeneous, inverse): the 1D values, the 2D values, and for any
    dimension the closed form in which only the six listed fields depend on
    the dimension and only the learning rate depends on the inverse flag. *)
Theorem hyperparameters_are_derived (dyn : Dynamics.t) (d : Z) (h : bool)
    (inv : option string) :
  let rate := if truthy inv then 0.0001%float else 0.0005%float in
  __init__ dyn 1 h inv
  = mkPINN dyn 1 h inv 2 4 32 3 20000 1000 1000 16 4 15000 1000 rate
           None None None None
  /\ __init__ dyn 2 h inv
     = mkPINN dyn 2 h inv 3 5 60 3 40000 4000 1000 16 4 15000 150000 rate
              None None None None
  /\ __init__ dyn d h inv
     = mkPINN dyn d h inv
              (if d =? 2 then 3 else 2) (if d =? 2 then 5 else 4)
              (if d =? 2 then 60 else 32) 3
              (if d =? 2 then 40000 else 20000) (if d =? 2 then 4000 else 1000)
              1000 16 4 15000 (if d =? 2 then 150000 else 1000) rate
              None None None None.
Proof.
  intros rate; subst rate.
  rewrite !init_closed_form. repeat split; reflexivity.
Qed.

(** C5. The output width of a heterogeneous trainer: the code assigns 3,
    which is also the width of a trainer that is not heterogeneous. *)
Theorem heterogeneous_output_width (dyn : Dynamics.t) (d : Z) (inv : option string) :
  output (__init__ dyn d true inv) = 3
  /\ output (__init__ dyn d false inv) = 3.
Proof.
  rewrite !init_closed_form. split; reflexivity.
Qed.

(** ** Model assembly *)

(** C3. For each configuration that the residual-selection table lists,
    [define_pinn] succeeds, binds exactly the residual of the table into the
    sampling data and applies exactly the output transform of the table (or
    none where the table has none). *)
Theorem residual_selection_follows_table (p : PINN) (g i o : handle)
    (r : residual) (tr : option transform) :
  residual_table (dim p) (heter p) (inverse_has_d (inverse p)) = Some (r, tr) ->
  exists w',
    define_pinn g i o (mkWorld p []) = (Return 0, w')
    /\ trace w' = assembly_log p g i o r tr
    /\ residuals (trace w') = [r]
    /\ transforms (trace w') = option_list tr
    /\ pde_data (self_of w') = Some r.
Proof.
  unfold residual_table, assembly_log. intros Htable.
  run_monad.
  destruct (dim p =? 1) eqn:H1.
  - inversion Htable; subst. cbn. eexists; repeat split; reflexivity.
  - destruct (dim p =? 2) eqn:H2; [|discriminate].
    destruct (heter p) eqn:Hh; cbn [andb negb].
    + destruct (inverse_has_d (inverse p)); inversion Htable; subst; cbn;
        eexists; repeat split; reflexivity.
    + inversion Htable; subst. cbn. eexists; repeat split; reflexivity.
Qed.

Lemma residual_selection_follows_table_witness :
  exists w',
    define_pinn "geomtime" "input_data" "observe_train"
      (mkWorld (__init__ sample_dynamics 2 true (Some "d")) [])
    = (Return 0, w')
    /\ trace w' = assembly_log (__init__ sample_dynamics 2 true (Some "d"))
                    "geomtime" "input_data" "observe_train"
                    pde_2D_heter (Some modify_inv_heter)
    /\ residuals (trace w') = [pde_2D_heter]
    /\ transforms (trace w') = [modify_inv_heter]
    /\ pde_data (self_of w') = Some pde_2D_heter.
Proof.
  apply (residual_selection_follows_table
           (__init__ sample_dynamics 2 true (Some "d"))
           "geomtime" "input_data" "observe_train"
           pde_2D_heter (Some modify_inv_heter)).
  reflexivity.
Defined.

(** C4, the claim as stated, at dimension 3: the assembly does fail, but
    with no exception of the class that the claim names. *)
Lemma unsupported_dimension_not_rejected_explicitly :
  ~ exists e,
      fst (define_pinn "geomtime" "input_data" "observe_train"
             (mkWorld (__init__ sample_dynamics 3 false None) []))
      = Raise e
      /\ exn_class e = "UnsupportedConfiguration"%string.
Proof.
  intros (e & Hrun & Hclass).
  vm_compute in Hrun. inversion Hrun; subst e.
  vm_compute in Hclass. discriminate Hclass.
Qed.

(** C4, amended. For every configuration that the table does not list, the
    assembly builds the network and then stops with [UnboundLocalError] on
    the residual that no branch assigned: no output transform is applied, no
    sampling data object or model is built, nothing is compiled. *)
Theorem unlisted_configuration_stops_assembly (p : PINN) (g i o : handle) :
  residual_table (dim p) (heter p) (inverse_has_d (inverse p)) = None ->
  define_pinn g i o (mkWorld p [])
  = (Raise (UnboundLocalError "pde"),
     mkWorld (set_net (layer_sizes_of p) p)
             [FNN (layer_sizes_of p) "tanh" "Glorot uniform"]).
Proof.
  unfold residual_table. intros Htable.
  run_monad.
  destruct (dim p =? 1) eqn:H1; [discriminate|].
  destruct (dim p =? 2) eqn:H2.
  - destruct (heter p), (inverse_has_d (inverse p)); discriminate.
  - cbn. reflexivity.
Qed.

Lemma unlisted_configuration_stops_assembly_witness :
  define_pinn "geomtime" "input_data" "observe_train"
    (mkWorld (__init__ sample_dynamics 3 false None) [])
  = (Raise (UnboundLocalError "pde"),
     mkWorld (set_net (layer_sizes_of (__init__ sample_dynamics 3 false None))
                      (__init__ sample_dynamics 3 false None))
             [FNN (layer_sizes_of (__init__ sample_dynamics 3 false None))
                  "tanh" "Glorot uniform"]).
Proof.
  apply (unlisted_configuration_stops_assembly
           (__init__ sample_dynamics 3 false None)
           "geomtime" "input_data" "observe_train").
  reflexivity.
Defined.

(** ** Stabilised initialisation *)

Lemma trainings_app (l l' : list call) :
  trainings (l ++ l') = (trainings l + trainings l')%nat.
Proof. unfold trainings. rewrite filter_app, length_app. reflexivity. Qed.

Lemma models_app (l l' : list call) :
  models (l ++ l') = (models l + models l')%nat.
Proof. unfold models. rewrite filter_app, length_app. reflexivity. Qed.

Lemma rejected_set_model (m : nat) (p : PINN) (x : float) :
  rejected (set_model m p) x = rejected p x.
Proof. reflexivity. Qed.

Lemma assembled_set_model (m : nat) (p : PINN) :
  assembled p = true -> assembled (set_model m p) = true.
Proof.
  unfold assembled, set_model; cbn.
  destruct (pde_data p), (net p), (model p); intros H; try discriminate H; reflexivity.
Qed.

(** One reinitialisation of a trainer that has its sampling data and its
    network: three calls are logged, the model is replaced, and the loss is
    the maximum of what the engine reports for this training run. *)
Lemma retrain_ready (eng : engine) (w : world) (d : residual) (n : list Z) :
  pde_data (self_of w) = Some d ->
  net (self_of w) = Some n ->
  retrain eng w
  = (match py_max (eng (trainings (trace w))) with
     | inr x => Return x
     | inl e => Raise e
     end,
     mkWorld (set_model (models (trace w)) (self_of w))
             (trace w ++ reinit_calls (self_of w))).
Proof.
  unfold retrain, reinit_calls. destruct w as [p tr]. run_monad.
  cbn [self_of trace]. intros Hd Hn. rewrite Hd. cbn. rewrite Hn. cbn.
  rewrite !trainings_app. change (trainings [Model]) with 0%nat.
  change (trainings [compile "adam" (Some (lr p)) None]) with 0%nat.
  rewrite !Nat.add_0_r, <- !app_assoc. cbn.
  destruct (py_max (eng (trainings tr))); reflexivity.
Qed.

Lemma retrain_assembled (eng : engine) (w : world) :
  assembled (self_of w) = true ->
  retrain eng w
  = (match py_max (eng (trainings (trace w))) with
     | inr x => Return x
     | inl e => Raise e
     end,
     mkWorld (set_model (models (trace w)) (self_of w))
             (trace w ++ reinit_calls (self_of w))).
Proof.
  unfold assembled. intros H.
  destruct (pde_data (self_of w)) eqn:Hd; [|discriminate H].
  destruct (net (self_of w)) eqn:Hn; [|discriminate H].
  exact (retrain_ready eng w _ _ Hd Hn).
Qed.

Lemma trainings_reinit_calls (p : PINN) : trainings (reinit_calls p) = 1%nat.
Proof. reflexivity. Qed.

Lemma models_reinit_calls (p : PINN) : models (reinit_calls p) = 1%nat.
Proof. reflexivity. Qed.

Ltac count_calls :=
  cbn [self_of trace MAX_MODEL_INIT set_model];
  rewrite ?trainings_app, ?models_app, ?trainings_reinit_calls, ?models_reinit_calls;
  try lia;
  try (unfold trainings, models; cbn [filter is_train is_model List.length]; lia).

(** One reinitialisation of any trainer ends, with at most one more
    training run in the log, and leaves the limits as they were. *)
Lemma retrain_any (eng : engine) (w : world) :
  exists r w',
    retrain eng w = (r, w')
    /\ terminated r
    /\ (trainings (trace w') <= trainings (trace w) + 1)%nat
    /\ MAX_MODEL_INIT (self_of w') = MAX_MODEL_INIT (self_of w).
Proof.
  destruct (pde_data (self_of w)) eqn:Hd;
    [destruct (net (self_of w)) eqn:Hn|].
  - rewrite (retrain_ready eng w _ _ Hd Hn).
    do 2 eexists. split; [reflexivity|].
    repeat split; [destruct (py_max _); exact I | count_calls].
  - unfold retrain. destruct w as [p tr]. run_monad.
    cbn [self_of trace] in *. rewrite Hd. cbn. rewrite Hn.
    do 2 eexists; (split; [reflexivity|]); repeat split; try exact I; count_calls.
  - unfold retrain. destruct w as [p tr]. run_monad.
    cbn [self_of trace] in *. rewrite Hd.
    do 2 eexists; (split; [reflexivity|]); repeat split; try exact I; count_calls.
Qed.

Lemma stable_init_loop_unfold (eng : engine) (fuel : nat) (loss : float)
    (num : Z) (w : world) :
  stable_init_loop eng fuel loss num w
  = if rejected (self_of w) loss then
      match fuel with
      | O => (OutOfFuel, w)
      | S fuel' =>
          match retrain eng w with
          | (Return x, w1) =>
              if num + 1 >? MAX_MODEL_INIT (self_of w1) then
                (Raise (ValueError limit_message), w1)
              else stable_init_loop eng fuel' x (num + 1) w1
          | (Raise e, w1) => (Raise e, w1)
          | (OutOfFuel, w1) => (OutOfFuel, w1)
          end
      end
    else (Return tt, w).
Proof.
  destruct fuel; cbn [stable_init_loop]; unfold bind, get_self, out_of_fuel, ret, raise;
    destruct (rejected (self_of w) loss); try reflexivity.
  destruct (retrain eng w) as [[x|e|] w1]; try reflexivity.
  destruct (num + 1 >? MAX_MODEL_INIT (self_of w1)); reflexivity.
Qed.

(** The loop ends within [1 + (MAX_MODEL_INIT - num_init)] iterations,
    whatever the engine reports, and trains once per iteration. *)
Lemma stable_init_loop_terminates (fuel : nat) :
  forall (eng : engine) (loss : float) (num : Z) (w : world),
    (1 + Z.to_nat (MAX_MODEL_INIT (self_of w) - num) <= fuel)%nat ->
    exists r w',
      stable_init_loop eng fuel loss num w = (r, w')
      /\ terminated r
      /\ (trainings (trace w')
          <= trainings (trace w) + (1 + Z.to_nat (MAX_MODEL_INIT (self_of w) - num)))%nat.
Proof.
  induction fuel as [|fuel IH]; intros eng loss num w Hfuel; [lia|].
  rewrite stable_init_loop_unfold.
  destruct (rejected (self_of w) loss).
  - destruct (retrain_any eng w) as (r1 & w1 & Hrun & Hterm & Hcount & Hmax).
    rewrite Hrun. destruct r1 as [x|e|]; [|do 2 eexists; repeat split; try exact I; lia|contradiction].
    rewrite Hmax.
    destruct (num + 1 >? MAX_MODEL_INIT (self_of w)) eqn:Hlimit.
    + do 2 eexists; repeat split; try exact I; lia.
    + rewrite Z.gtb_ltb in Hlimit. apply Z.ltb_ge in Hlimit.
      destruct (IH eng x (num + 1) w1) as (r & w' & Hloop & Hr & Hn).
      * rewrite Hmax. lia.
      * rewrite Hmax in Hn. exists r, w'. repeat split; [exact Hloop|exact Hr|lia].
  - do 2 eexists; repeat split; try exact I; lia.
Qed.

(** When the losses of the next [MAX_MODEL_INIT - num_init] training runs
    are rejected, the loop runs [1 + (MAX_MODEL_INIT - num_init)] times and
    raises; the loss of its last training run is not looked at. *)
Lemma stable_init_loop_exhausts (fuel : nat) :
  forall (eng : engine) (loss : float) (num : Z) (w : world) (bound : nat),
    assembled (self_of w) = true ->
    rejected (self_of w) loss = true ->
    (forall n, exists x, py_max (eng n) = inr x) ->
    bound = (trainings (trace w) + Z.to_nat (MAX_MODEL_INIT (self_of w) - num))%nat ->
    (forall n x, (n < bound)%nat -> py_max (eng n) = inr x ->
                 rejected (self_of w) x = true) ->
    (1 + Z.to_nat (MAX_MODEL_INIT (self_of w) - num) <= fuel)%nat ->
    exists w',
      stable_init_loop eng fuel loss num w = (Raise (ValueError limit_message), w')
      /\ trainings (trace w')
         = (trainings (trace w) + (1 + Z.to_nat (MAX_MODEL_INIT (self_of w) - num)))%nat
      /\ models (trace w')
         = (models (trace w) + (1 + Z.to_nat (MAX_MODEL_INIT (self_of w) - num)))%nat.
Proof.
  induction fuel as [|fuel IH];
    intros eng loss num w bound Hasm Hloss Hdef Hbound Hrej Hfuel; [lia|].
  rewrite stable_init_loop_unfold, Hloss, (retrain_assembled eng w Hasm).
  destruct (Hdef (trainings (trace w))) as (x & Hx). rewrite Hx.
  cbn [self_of MAX_MODEL_INIT set_model].
  destruct (num + 1 >? MAX_MODEL_INIT (self_of w)) eqn:Hlimit.
  - apply Z.gtb_lt in Hlimit.
    eexists; repeat split; count_calls.
  - rewrite Z.gtb_ltb in Hlimit. apply Z.ltb_ge in Hlimit.
    destruct (IH eng x (num + 1)
                 (mkWorld (set_model (models (trace w)) (self_of w))
                          (trace w ++ reinit_calls (self_of w))) bound)
      as (w' & Hloop & Htrain & Hmodel).
    + apply assembled_set_model, Hasm.
    + cbn [self_of]; rewrite rejected_set_model. apply (Hrej (trainings (trace w)) x); [lia|exact Hx].
    + exact Hdef.
    + subst bound. count_calls.
    + intros n y Hn Hy. cbn [self_of]; rewrite rejected_set_model. exact (Hrej n y Hn Hy).
    + cbn [self_of MAX_MODEL_INIT set_model]. lia.
    + exists w'. split; [exact Hloop|].
      revert Htrain Hmodel. count_calls.
Qed.

(** When the losses of the next [j] training runs are rejected and that of
    the run after them is not, and the counter stays within the limit, the
    loop reinitialises [j + 1] times and accepts. *)
Lemma stable_init_loop_accepts (j : nat) :
  forall (eng : engine) (fuel : nat) (loss : float) (num : Z) (w : world),
    assembled (self_of w) = true ->
    rejected (self_of w) loss = true ->
    (forall k, (k < j)%nat ->
       exists x, py_max (eng (trainings (trace w) + k)%nat) = inr x
                 /\ rejected (self_of w) x = true) ->
    (exists x, py_max (eng (trainings (trace w) + j)%nat) = inr x
               /\ rejected (self_of w) x = false) ->
    num + Z.of_nat j + 1 <= MAX_MODEL_INIT (self_of w) ->
    (j + 1 <= fuel)%nat ->
    exists w',
      stable_init_loop eng fuel loss num w = (Return tt, w')
      /\ trainings (trace w') = (trainings (trace w) + (j + 1))%nat
      /\ models (trace w') = (models (trace w) + (j + 1))%nat.
Proof.
  induction j as [|j IH]; intros eng fuel loss num w Hasm Hloss Hrej Hacc Hnum Hfuel;
    (destruct fuel as [|fuel]; [lia|]);
    rewrite stable_init_loop_unfold, Hloss, (retrain_assembled eng w Hasm).
  - destruct Hacc as (x & Hx & Hok). rewrite Nat.add_0_r in Hx. rewrite Hx.
    cbn [self_of MAX_MODEL_INIT set_model].
    destruct (num + 1 >? MAX_MODEL_INIT (self_of w)) eqn:Hlimit;
      [apply Z.gtb_lt in Hlimit; lia|].
    rewrite stable_init_loop_unfold; cbn [self_of]; rewrite rejected_set_model, Hok.
    eexists; repeat split; count_calls.
  - destruct (Hrej 0%nat) as (x & Hx & Hbad); [lia|].
    rewrite Nat.add_0_r in Hx. rewrite Hx.
    cbn [self_of MAX_MODEL_INIT set_model].
    destruct (num + 1 >? MAX_MODEL_INIT (self_of w)) eqn:Hlimit;
      [apply Z.gtb_lt in Hlimit; lia|].
    destruct (IH eng fuel x (num + 1)
                 (mkWorld (set_model (models (trace w)) (self_of w))
                          (trace w ++ reinit_calls (self_of w))))
      as (w' & Hloop & Htrain & Hmodel).
    + apply assembled_set_model, Hasm.
    + cbn [self_of]; rewrite rejected_set_model. exact Hbad.
    + intros k Hk. destruct (Hrej (S k)) as (y & Hy & Hbady); [lia|].
      exists y. cbn [self_of]; rewrite rejected_set_model. split; [|exact Hbady].
      rewrite <- Hy. f_equal. f_equal. count_calls.
    + destruct Hacc as (y & Hy & Hoky). exists y.
      cbn [self_of]; rewrite rejected_set_model. split; [|exact Hoky].
      rewrite <- Hy. f_equal. f_equal. count_calls.
    + cbn [self_of MAX_MODEL_INIT set_model]. lia.
    + lia.
    + exists w'. split; [exact Hloop|]. revert Htrain Hmodel. count_calls.
Qed.

(** The world after the first one-epoch training of [stable_init]. *)
Lemma stable_init_unfold (eng : engine) (fuel : nat) (w : world) :
  stable_init eng fuel w
  = match model (self_of w) with
    | None => (Raise (AttributeError "model"), w)
    | Some _ =>
        let w1 := mkWorld (self_of w) (trace w ++ [train_run (Some 1) None []]) in
        match py_max (eng (trainings (trace w))) with
        | inl e => (Raise e, w1)
        | inr x =>
            match stable_init_loop eng fuel x 1 w1 with
            | (Return _, w2) => (Return 0, w2)
            | (Raise e, w2) => (Raise e, w2)
            | (OutOfFuel, w2) => (OutOfFuel, w2)
            end
        end
    end.
Proof.
  unfold stable_init. destruct w as [p tr]. run_monad.
  destruct (model p); [|reflexivity]. cbn [self_of trace].
  destruct (py_max (eng (trainings tr))); [reflexivity|].
  destruct (stable_init_loop _ _ _ _ _) as [[u|e|] w2]; reflexivity.
Qed.

Lemma assembled_model (p : PINN) :
  assembled p = true -> exists m, model p = Some m.
Proof.
  unfold assembled. destruct (pde_data p), (net p), (model p) as [m|];
    intros H; try discriminate H. exists m; reflexivity.
Qed.

(** The first attempt is accepted as it is. *)
Lemma stable_init_accepts_first (eng : engine) (fuel : nat) (w : world) (x : float) :
  assembled (self_of w) = true ->
  py_max (eng (trainings (trace w))) = inr x ->
  rejected (self_of w) x = false ->
  stable_init eng fuel w
  = (Return 0, mkWorld (self_of w) (trace w ++ [train_run (Some 1) None []])).
Proof.
  intros Hasm Hx Hok. destruct (assembled_model _ Hasm) as (m & Hm).
  rewrite stable_init_unfold, Hm, Hx. cbn zeta.
  rewrite stable_init_loop_unfold. cbn [self_of]. rewrite Hok. reflexivity.
Qed.

(** Acceptance at attempt [a], for every [a] from 2 up to the limit: when
    the first [a - 1] losses are rejected and the loss of attempt [a] is
    not, [stable_init] returns after [a] training runs and [a - 1]
    reinitialisations. *)
Lemma stable_init_accepts_within_limit (eng : engine) (fuel : nat) (w : world)
    (a : nat) :
  assembled (self_of w) = true ->
  (2 <= a)%nat ->
  Z.of_nat a <= MAX_MODEL_INIT (self_of w) ->
  (a - 1 <= fuel)%nat ->
  (forall k, (k < a - 1)%nat ->
     exists x, py_max (eng (trainings (trace w) + k)%nat) = inr x
               /\ rejected (self_of w) x = true) ->
  (exists x, py_max (eng (trainings (trace w) + (a - 1))%nat) = inr x
             /\ rejected (self_of w) x = false) ->
  exists w',
    stable_init eng fuel w = (Return 0, w')
    /\ trainings (trace w') = (trainings (trace w) + a)%nat
    /\ models (trace w') = (models (trace w) + (a - 1))%nat.
Proof.
  intros Hasm Ha Hlimit Hfuel Hrej Hacc.
  destruct (assembled_model _ Hasm) as (m & Hm).
  rewrite stable_init_unfold, Hm.
  destruct (Hrej 0%nat) as (x & Hx & Hbad); [lia|].
  rewrite Nat.add_0_r in Hx. rewrite Hx. cbn zeta.
  destruct (stable_init_loop_accepts (a - 2) eng fuel x 1
              (mkWorld (self_of w) (trace w ++ [train_run (Some 1) None []])))
    as (w' & Hloop & Htrain & Hmodel); cbn [self_of trace].
  - exact Hasm.
  - exact Hbad.
  - intros k Hk. destruct (Hrej (S k)) as (y & Hy & Hbady); [lia|].
    exists y. split; [|exact Hbady]. rewrite <- Hy. f_equal. f_equal. count_calls.
  - destruct Hacc as (y & Hy & Hoky). exists y. split; [|exact Hoky].
    rewrite <- Hy. f_equal. f_equal. count_calls.
  - lia.
  - lia.
  - rewrite Hloop. exists w'. split; [reflexivity|].
    revert Htrain Hmodel. count_calls.
Qed.

(** The losses [NaN, 5.0, 3.9]: two reinitialisations, then acceptance on
    the third attempt. *)
Example stable_init_nan_5_39 :
  exists w',
    stable_init (replay [[nan]; [5%float]; [3.9%float]] [nan]) 16
                (assembled_world 2 false None)
    = (Return 0, w')
    /\ trace w'
       = trace (assembled_world 2 false None)
         ++ [train_run (Some 1) None []]
         ++ reinit_calls (self_of (assembled_world 2 false None))
         ++ reinit_calls (self_of (assembled_world 2 false None)).
Proof. eexists. split; vm_compute; reflexivity. Qed.

(** With the limit at 16: when the losses of the first sixteen training
    runs are rejected, [stable_init] reinitialises a sixteenth time, trains a
    seventeenth time and raises, whatever loss that last run reports. *)
Lemma stable_init_ignores_last_loss (eng : engine) (fuel : nat) (w : world) :
  assembled (self_of w) = true ->
  MAX_MODEL_INIT (self_of w) = 16 ->
  (16 <= fuel)%nat ->
  (forall n, exists x, py_max (eng n) = inr x) ->
  (forall n x, (n < trainings (trace w) + 16)%nat -> py_max (eng n) = inr x ->
               rejected (self_of w) x = true) ->
  exists w',
    stable_init eng fuel w = (Raise (ValueError limit_message), w')
    /\ trainings (trace w') = (trainings (trace w) + 17)%nat
    /\ models (trace w') = (models (trace w) + 16)%nat.
Proof.
  intros Hasm Hmax Hfuel Hdef Hrej.
  destruct (assembled_model _ Hasm) as (m & Hm).
  rewrite stable_init_unfold, Hm.
  destruct (Hdef (trainings (trace w))) as (x & Hx). rewrite Hx. cbn zeta.
  destruct (stable_init_loop_exhausts fuel eng x 1
              (mkWorld (self_of w) (trace w ++ [train_run (Some 1) None []]))
              (Nat.add (trainings (trace w ++ [train_run (Some 1) None []]))
                       (Z.to_nat (MAX_MODEL_INIT (self_of w) - 1))))
    as (w' & Hloop & Htrain & Hmodel); cbn [self_of trace].
  - exact Hasm.
  - apply (Hrej (trainings (trace w)) x); [lia|exact Hx].
  - exact Hdef.
  - reflexivity.
  - intros n y Hn Hy. apply (Hrej n y); [|exact Hy].
    revert Hn. rewrite Hmax, trainings_app.
    change (trainings [train_run (Some 1) None []]) with 1%nat.
    change (Z.to_nat (16 - 1)) with 15%nat. lia.
  - rewrite Hmax. cbn. lia.
  - rewrite Hloop. exists w'. split; [reflexivity|].
    revert Htrain Hmodel. cbn [self_of trace]. rewrite Hmax.
    rewrite trainings_app, models_app.
    change (trainings [train_run (Some 1) None []]) with 1%nat.
    change (models [train_run (Some 1) None []]) with 0%nat.
    change (Z.to_nat (16 - 1)) with 15%nat. lia.
Qed.

(** C1. An acceptable loss on the seventeenth training run, the last one
    that the loop performs, is not accepted: after sixteen rejected losses
    the loop reinitialises and trains once more, and then raises whatever
    that run reports, here 3.9, which is below the limit of 4. *)
Theorem acceptable_last_attempt_is_discarded :
  let eng := replay (repeat [nan] 16) [3.9%float] in
  let w := assembled_world 1 false None in
  py_max (eng 16%nat) = inr 3.9%float
  /\ rejected (self_of w) 3.9%float = false
  /\ exists w',
       stable_init eng 16 w = (Raise (ValueError limit_message), w')
       /\ trainings (trace w') = 17%nat
       /\ models (trace w') = 17%nat.
Proof.
  cbv zeta. split; [reflexivity|]. split; [reflexivity|].
  eexists. split; [vm_compute; reflexivity|]. split; reflexivity.
Qed.

(** C2. With the limit at 16 and fuel for 16 iterations, [stable_init]
    always ends, with at most 17 training runs; and when the maximum loss of
    every attempt is rejected (NaN or above [MAX_LOSS]) it performs exactly
    17 training runs, 16 of them after a reinitialisation, and raises the
    error of the exceeded limit. *)
Theorem stable_init_exhausts_budget (eng : engine) (fuel : nat) (w : world) :
  MAX_MODEL_INIT (self_of w) = 16 ->
  (16 <= fuel)%nat ->
  (exists r w',
     stable_init eng fuel w = (r, w')
     /\ terminated r
     /\ (trainings (trace w') <= trainings (trace w) + 17)%nat)
  /\ (assembled (self_of w) = true ->
      (forall n, exists x, py_max (eng n) = inr x
                           /\ rejected (self_of w) x = true) ->
      exists w',
        stable_init eng fuel w = (Raise (ValueError limit_message), w')
        /\ trainings (trace w') = (trainings (trace w) + 17)%nat
        /\ models (trace w') = (models (trace w) + 16)%nat).
Proof.
  intros Hmax Hfuel. split.
  - rewrite stable_init_unfold.
    destruct (model (self_of w)); [|do 2 eexists; repeat split; try exact I; lia].
    cbn zeta.
    destruct (py_max (eng (trainings (trace w)))) as [e|x];
      [do 2 eexists; repeat split; try exact I; count_calls|].
    destruct (stable_init_loop_terminates fuel eng x 1
                (mkWorld (self_of w) (trace w ++ [train_run (Some 1) None []])))
      as (r & w' & Hloop & Hterm & Hcount).
    + cbn [self_of]. rewrite Hmax. cbn. lia.
    + rewrite Hloop. revert Hcount. cbn [self_of trace]. rewrite Hmax.
      rewrite trainings_app. change (trainings [train_run (Some 1) None []]) with 1%nat.
      change (Z.to_nat (16 - 1)) with 15%nat. intros Hcount.
      destruct r as [u|e|]; [| |contradiction];
        do 2 eexists; repeat split; try exact I; lia.
  - intros Hasm Hrej.
    apply (stable_init_ignores_last_loss eng fuel w Hasm Hmax Hfuel).
    + intros n. destruct (Hrej n) as (y & Hy & _). exists y; exact Hy.
    + intros n y _ Hy. destruct (Hrej n) as (z & Hz & Hbadz).
      rewrite Hy in Hz. inversion Hz; subst z. exact Hbadz.
Qed.

Lemma stable_init_exhausts_budget_witness :
  exists w',
    stable_init (replay [] [nan]) 16 (assembled_world 2 true (Some "d"))
    = (Raise (ValueError limit_message), w')
    /\ trainings (trace w')
       = (trainings (trace (assembled_world 2 true (Some "d"))) + 17)%nat
    /\ models (trace w')
       = (models (trace (assembled_world 2 true (Some "d"))) + 16)%nat.
Proof.
  apply (stable_init_exhausts_budget (replay [] [nan]) 16
           (assembled_world 2 true (Some "d"))).
  - reflexivity.
  - lia.
  - reflexivity.
  - intros n. exists nan. split; [|reflexivity].
    unfold replay. destruct n; reflexivity.
Defined.

(** ** Training schedules *)

Lemma set_model_idem (m m' : nat) (p : PINN) :
  set_model m' (set_model m p) = set_model m' p.
Proof. reflexivity. Qed.

(** A reinitialisation changes nothing of the object but its model. *)
Lemma retrain_self (eng : engine) (w : world) (r : outcome float) (w' : world) :
  retrain eng w = (r, w') ->
  self_of w' = self_of w \/ exists m, self_of w' = set_model m (self_of w).
Proof.
  destruct (pde_data (self_of w)) eqn:Hd;
    [destruct (net (self_of w)) eqn:Hn|].
  - rewrite (retrain_ready eng w _ _ Hd Hn). intros H; inversion H; subst.
    right. eexists; reflexivity.
  - unfold retrain. destruct w as [p tr]. run_monad.
    cbn [self_of trace] in *. rewrite Hd. cbn. rewrite Hn.
    intros H; inversion H; subst. left; reflexivity.
  - unfold retrain. destruct w as [p tr]. run_monad.
    cbn [self_of trace] in *. rewrite Hd.
    intros H; inversion H; subst. left; reflexivity.
Qed.

Lemma stable_init_loop_self (fuel : nat) :
  forall (eng : engine) (loss : float) (num : Z) (w : world)
         (r : outcome unit) (w' : world),
    stable_init_loop eng fuel loss num w = (r, w') ->
    self_of w' = self_of w \/ exists m, self_of w' = set_model m (self_of w).
Proof.
  induction fuel as [|fuel IH]; intros eng loss num w r w';
    rewrite stable_init_loop_unfold; destruct (rejected (self_of w) loss);
    try (intros H; inversion H; subst; left; reflexivity).
  destruct (retrain eng w) as [[x|e|] w1] eqn:Hrun;
    try (intros H; inversion H; subst; exact (retrain_self _ _ _ _ Hrun)).
  destruct (num + 1 >? MAX_MODEL_INIT (self_of w1));
    [intros H; inversion H; subst; exact (retrain_self _ _ _ _ Hrun)|].
  intros Hloop. apply IH in Hloop.
  destruct (retrain_self _ _ _ _ Hrun) as [H1|(m1 & H1)];
    destruct Hloop as [H2|(m2 & H2)]; rewrite H2, H1.
  - left; reflexivity.
  - right; eexists; reflexivity.
  - right; eexists; reflexivity.
  - right; exists m2; reflexivity.
Qed.

(** After a successful [stable_init] the object is the one it started from,
    up to its model, which exists. *)
Lemma stable_init_self (eng : engine) (fuel : nat) (w w' : world) (z : Z) :
  stable_init eng fuel w = (Return z, w') ->
  exists m, self_of w' = set_model m (self_of w).
Proof.
  rewrite stable_init_unfold.
  destruct (model (self_of w)) as [m0|] eqn:Hm; [|discriminate].
  cbn zeta. destruct (py_max _) as [e|x]; [discriminate|].
  destruct (stable_init_loop _ _ _ _ _) as [[u|e|] w2] eqn:Hloop; try discriminate.
  intros H; inversion H; subst.
  apply stable_init_loop_self in Hloop. cbn [self_of] in Hloop.
  destruct Hloop as [H1|(m & H1)]; [|exists m; exact H1].
  exists m0. rewrite H1. destruct (self_of w); cbn in *. subst. reflexivity.
Qed.

Lemma observers_truthy (p : PINN) (params : handle) :
  truthy (inverse p) = true ->
  [VariableValue params 1000 (variables_file (inverse p))] = observers p params.
Proof.
  unfold observers, variables_file, truthy.
  destruct (inverse p) as [[|a s]|]; intros H; try discriminate H; reflexivity.
Qed.

Lemma observers_falsy (p : PINN) (params : handle) :
  truthy (inverse p) = false -> [] = observers p params.
Proof.
  unfold observers, truthy.
  destruct (inverse p) as [[|a s]|]; intros H; try discriminate H; reflexivity.
Qed.

(** The 2D schedule on a trainer that has a model: six calls, in order. *)
Lemma train_3_phase_calls (p : PINN) (tr : list call) (out_path params : handle)
    (m : nat) :
  model p = Some m ->
  train_3_phase out_path params (mkWorld p tr)
  = (Return (trainings tr + 2)%nat,
     mkWorld p (tr ++ spec_three_phase p out_path params)).
Proof.
  intros Hm. unfold train_3_phase, spec_three_phase, init_weights. run_monad.
  destruct (truthy (inverse p)) eqn:Hinv;
    [rewrite <- (observers_truthy p params Hinv)
    |rewrite <- (observers_falsy p params Hinv)];
    repeat (cbn [self_of trace]; rewrite ?Hm);
    rewrite !trainings_app, <- !app_assoc; cbn [app];
    (apply f_equal2; [apply f_equal; unfold trainings; cbn; lia | reflexivity]).
Qed.

(** The 1D schedule on a trainer that has a model: one training run. *)
Lemma train_1_phase_calls (p : PINN) (tr : list call) (out_path params : handle)
    (m : nat) :
  model p = Some m ->
  train_1_phase out_path params (mkWorld p tr)
  = (Return (trainings tr),
     mkWorld p (tr ++ spec_one_phase p out_path params)).
Proof.
  intros Hm. unfold train_1_phase, spec_one_phase. run_monad.
  destruct (truthy (inverse p)) eqn:Hinv;
    [rewrite <- (observers_truthy p params Hinv)
    |rewrite <- (observers_falsy p params Hinv)];
    cbn [self_of trace]; rewrite Hm; reflexivity.
Qed.

(** C7. Once [stable_init] has accepted a model, [train] on a 2D trainer
    makes exactly the six calls of the three phases, in order: Adam at 5e-4
    with loss weights [0,0,0,0,1] for [epochs_init] epochs, Adam at the
    configured rate with default weights for [epochs_main] epochs, L-BFGS-B
    with no epoch budget; on a 1D trainer it makes the single training run.
    This holds for every inverse flag; the observers of every phase are the
    variable tracker with period 1000 and file "variables_<flag>.dat" when
    the flag is truthy, and none otherwise. *)
Theorem training_phases (eng : engine) (fuel : nat) (out_path params : handle)
    (w w1 : world) :
  stable_init eng fuel w = (Return 0, w1) ->
  (dim (self_of w) = 2 ->
   exists m h,
     train eng fuel out_path params w
     = (Return (m, h),
        mkWorld (self_of w1)
                (trace w1 ++ spec_three_phase (self_of w) out_path params)))
  /\ (dim (self_of w) = 1 ->
      exists m h,
        train eng fuel out_path params w
        = (Return (m, h),
           mkWorld (self_of w1)
                   (trace w1 ++ spec_one_phase (self_of w) out_path params)))
  /\ observers (self_of w) params
     = match inverse (self_of w) with
       | Some s =>
           if truthy (Some s) then
             [VariableValue params 1000 ("variables_" ++ s ++ ".dat")%string]
           else []
       | None => []
       end.
Proof.
  intros Hstable.
  destruct (stable_init_self _ _ _ _ _ Hstable) as (m & Hself).
  destruct w1 as [p1 tr1]. cbn [self_of trace] in *.
  assert (Hm : model p1 = Some m) by (rewrite Hself; reflexivity).
  assert (Hdim : dim p1 = dim (self_of w)) by (rewrite Hself; reflexivity).
  assert (H3 : spec_three_phase p1 out_path params
               = spec_three_phase (self_of w) out_path params)
    by (rewrite Hself; reflexivity).
  assert (H1 : spec_one_phase p1 out_path params
               = spec_one_phase (self_of w) out_path params)
    by (rewrite Hself; reflexivity).
  split; [|split].
  - intros H2. unfold train, bind, get_self. rewrite Hstable.
    cbn [self_of]. rewrite Hdim, H2. cbn [Z.eqb Pos.eqb].
    rewrite (train_3_phase_calls p1 tr1 out_path params m Hm), H3.
    unfold attr, local, ret. cbn [self_of]. rewrite Hm.
    do 2 eexists; reflexivity.
  - intros H2. unfold train, bind, get_self. rewrite Hstable.
    cbn [self_of]. rewrite Hdim, H2. cbn [Z.eqb Pos.eqb].
    rewrite (train_1_phase_calls p1 tr1 out_path params m Hm), H1.
    unfold attr, local, ret. cbn [self_of]. rewrite Hm.
    do 2 eexists; reflexivity.
  - unfold observers. destruct (inverse (self_of w)) as [[|a s]|]; reflexivity.
Qed.

Lemma training_phases_witness :
  exists m h,
    train (replay [] [1%float]) 16 "out_path" "params"
          (assembled_world 2 true (Some "d"))
    = (Return (m, h),
       mkWorld (self_of (accepted_world 2 true (Some "d")))
               (trace (accepted_world 2 true (Some "d"))
                ++ spec_three_phase (self_of (assembled_world 2 true (Some "d")))
                     "out_path" "params")).
Proof.
  refine (proj1 (training_phases (replay [] [1%float]) 16 "out_path" "params"
                   (assembled_world 2 true (Some "d"))
                   (accepted_world 2 true (Some "d")) _) _).
  - vm_compute. reflexivity.
  - vm_compute. reflexivity.
Defined.

(** ** Arrays *)

Local Open Scope nat_scope.

Lemma nth_map_seq {A} (F : nat -> A) (a n i : nat) (d : A) :
  i < n -> nth i (map F (seq a n)) d = F (a + i).
Proof.
  intros Hi.
  rewrite (nth_indep _ d (F 0)) by (rewrite length_map, length_seq; exact Hi).
  rewrite map_nth, seq_nth by exact Hi. reflexivity.
Qed.

Lemma nrows_mat_build (r c : nat) (f : nat -> nat -> float) :
  nrows (mat_build r c f) = r.
Proof. unfold nrows, mat_build. rewrite length_map, length_seq. reflexivity. Qed.

Lemma ncols_mat_build (r c : nat) (f : nat -> nat -> float) :
  0 < r -> ncols (mat_build r c f) = c.
Proof.
  unfold ncols, mat_build. destruct r as [|r]; [lia|]. intros _.
  cbn [seq map hd]. rewrite length_map, length_seq. reflexivity.
Qed.

Lemma mat_get_mat_build (r c : nat) (f : nat -> nat -> float) (i j : nat) :
  i < r -> j < c -> mat_get (mat_build r c f) i j = f i j.
Proof.
  intros Hi Hj. unfold mat_get, mat_build.
  rewrite (nth_map_seq _ 0 r i []) by exact Hi.
  rewrite (nth_map_seq _ 0 c j) by exact Hj. reflexivity.
Qed.

Lemma has_shape_mat_build (r c : nat) (f : nat -> nat -> float) :
  has_shape r c (mat_build r c f).
Proof.
  split; [apply nrows_mat_build|]. intros k Hk. unfold mat_build.
  rewrite (nth_map_seq _ 0 r k []) by exact Hk.
  rewrite length_map, length_seq. reflexivity.
Qed.

Lemma length_list_set {A} (n : nat) (x : A) (l : list A) :
  List.length (list_set n x l) = List.length l.
Proof.
  revert n; induction l as [|y l IH]; intros [|n]; cbn; try reflexivity.
  rewrite IH. reflexivity.
Qed.

Lemma nth_list_set_same {A} (n : nat) (x d : A) (l : list A) :
  n < List.length l -> nth n (list_set n x l) d = x.
Proof.
  revert n; induction l as [|y l IH]; intros [|n] Hn; cbn in *; try lia.
  - reflexivity.
  - apply IH. lia.
Qed.

Lemma nth_list_set_other {A} (n n' : nat) (x d : A) (l : list A) :
  n <> n' -> nth n' (list_set n x l) d = nth n' l d.
Proof.
  revert n n'; induction l as [|y l IH]; intros [|n] [|n'] Hne; cbn;
    try reflexivity; try lia.
  apply IH. lia.
Qed.

Lemma has_shape_mat_set (K T k t : nat) (x : float) (m : matrix) :
  has_shape K T m -> has_shape K T (mat_set k t x m).
Proof.
  intros [Hlen Hrows]. unfold mat_set. split.
  - rewrite length_list_set. exact Hlen.
  - intros k' Hk'. destruct (Nat.eq_dec k k') as [->|Hne].
    + rewrite nth_list_set_same by lia. rewrite length_list_set. apply Hrows, Hk'.
    + rewrite nth_list_set_other by exact Hne. apply Hrows, Hk'.
Qed.

Lemma mat_get_mat_set (K T k t k' t' : nat) (x : float) (m : matrix) :
  has_shape K T m -> k < K -> t < T ->
  mat_get (mat_set k t x m) k' t'
  = if (k' =? k) && (t' =? t) then x else mat_get m k' t'.
Proof.
  intros [Hlen Hrows] Hk Ht. unfold mat_get, mat_set.
  destruct (Nat.eqb_spec k' k) as [->|Hne]; cbn [andb].
  - rewrite nth_list_set_same by lia.
    destruct (Nat.eqb_spec t' t) as [->|Hnt].
    + apply nth_list_set_same. rewrite Hrows by exact Hk. exact Ht.
    + apply nth_list_set_other. congruence.
  - rewrite nth_list_set_other by congruence. reflexivity.
Qed.

(** Filling one column, row by row. *)
Lemma fill_column (K T t : nat) (g : nat -> float) (n : nat) :
  forall m : matrix,
    has_shape K T m -> t < T -> n <= K ->
    let m' := fold_left (fun phie k => mat_set k t (g k) phie) (seq 0 n) m in
    has_shape K T m'
    /\ forall k t', mat_get m' k t'
                    = if (k <? n) && (t' =? t) then g k else mat_get m k t'.
Proof.
  induction n as [|n IH]; intros m Hm Ht Hn; cbn zeta.
  - cbn. split; [exact Hm|]. intros k t'. reflexivity.
  - rewrite seq_S, fold_left_app. cbn [fold_left Nat.add].
    destruct (IH m Hm Ht) as [Hshape Hget]; [lia|]. cbn zeta in Hshape, Hget.
    split; [apply has_shape_mat_set, Hshape|].
    intros k t'. rewrite (mat_get_mat_set K T) by (try exact Hshape; lia).
    rewrite Hget.
    destruct (Nat.eqb_spec k n) as [->|Hne]; cbn [andb].
    + destruct (Nat.eqb_spec t' t) as [->|Hnt].
      * rewrite (proj2 (Nat.ltb_lt n (S n))) by lia. reflexivity.
      * rewrite !andb_false_r. reflexivity.
    + destruct (k <? n) eqn:Hlt.
      * apply Nat.ltb_lt in Hlt. rewrite (proj2 (Nat.ltb_lt k (S n))) by lia.
        reflexivity.
      * apply Nat.ltb_ge in Hlt. rewrite (proj2 (Nat.ltb_ge k (S n))) by lia.
        reflexivity.
Qed.

(** Filling the columns one after the other. *)
Lemma fill_columns (K T : nat) (col : nat -> nat -> float) (n : nat) :
  forall m : matrix,
    has_shape K T m -> n <= T ->
    let m' := fold_left
                (fun phie t =>
                   fold_left (fun phie' k => mat_set k t (col t k) phie') (seq 0 K) phie)
                (seq 0 n) m in
    has_shape K T m'
    /\ forall k t, mat_get m' k t
                   = if (k <? K) && (t <? n) then col t k else mat_get m k t.
Proof.
  induction n as [|n IH]; intros m Hm Hn; cbn zeta.
  - cbn. split; [exact Hm|]. intros k t. rewrite andb_false_r. reflexivity.
  - rewrite seq_S, fold_left_app. cbn [fold_left Nat.add].
    destruct (IH m Hm) as [Hshape Hget]; [lia|]. cbn zeta in Hshape, Hget.
    destruct (fill_column K T n (col n) K _ Hshape) as [Hshape' Hget']; try lia.
    cbn zeta in Hshape', Hget'.
    split; [exact Hshape'|]. intros k t. rewrite Hget', Hget.
    destruct (k <? K); cbn [andb]; [|reflexivity].
    destruct (Nat.eqb_spec t n) as [->|Hne].
    + rewrite (proj2 (Nat.ltb_lt n (S n))) by lia. reflexivity.
    + destruct (t <? n) eqn:Hlt.
      * apply Nat.ltb_lt in Hlt. rewrite (proj2 (Nat.ltb_lt t (S n))) by lia.
        reflexivity.
      * apply Nat.ltb_ge in Hlt. rewrite (proj2 (Nat.ltb_ge t (S n))) by lia.
        reflexivity.
Qed.

Lemma nrows_mat_map2 (op : float -> float -> float) (a b : matrix) :
  nrows (mat_map2 op a b) = nrows a.
Proof. apply nrows_mat_build. Qed.

Lemma ncols_mat_map2 (op : float -> float -> float) (a b : matrix) :
  0 < nrows a -> ncols (mat_map2 op a b) = ncols a.
Proof. apply ncols_mat_build. Qed.

Lemma nrows_mat_scale (c : float) (a : matrix) : nrows (mat_scale c a) = nrows a.
Proof. apply nrows_mat_build. Qed.

Lemma ncols_mat_scale (c : float) (a : matrix) :
  0 < nrows a -> ncols (mat_scale c a) = ncols a.
Proof. apply ncols_mat_build. Qed.

Lemma nrows_trim (a : matrix) : nrows (trim a) = nrows a - 2.
Proof. apply nrows_mat_build. Qed.

Lemma ncols_trim (a : matrix) : 2 < nrows a -> ncols (trim a) = ncols a - 2.
Proof. intros H. apply ncols_mat_build. lia. Qed.

Lemma mat_get_trim (a : matrix) (i j : nat) :
  i < nrows a - 2 -> j < ncols a - 2 ->
  mat_get (trim a) i j = mat_get a (i + 1) (j + 1).
Proof.
  intros Hi Hj. unfold trim. rewrite mat_get_mat_build by assumption. reflexivity.
Qed.

(** ** Potential-field reconstruction *)

Lemma length_arange (a b : Z) : List.length (arange a b) = Z.to_nat (b - a).
Proof. unfold arange. rewrite length_map, length_seq. reflexivity. Qed.

Lemma nth_arange (a b : Z) (i : nat) (d : Z) :
  i < Z.to_nat (b - a) -> nth i (arange a b) d = (a + Z.of_nat i)%Z.
Proof. intros Hi. unfold arange. rewrite nth_map_seq by exact Hi. reflexivity. Qed.

(** The diffusion array has the shape of the grid. *)
Lemma diffusion_array_shape (d : diffusion) (X Y : nat) (D_array : matrix) :
  0 < X ->
  diffusion_array d X Y = Some D_array ->
  nrows D_array = X /\ ncols D_array = Y.
Proof.
  intros HX. unfold diffusion_array. destruct d as [c|a].
  - intros H; inversion H; subst. unfold ones.
    rewrite nrows_mat_scale, nrows_mat_build.
    rewrite ncols_mat_scale by (rewrite nrows_mat_build; exact HX).
    rewrite ncols_mat_build by exact HX. split; reflexivity.
  - destruct (Nat.eqb_spec (nrows a) (X + 2)) as [Hr|]; [|discriminate].
    destruct (Nat.eqb_spec (ncols a) (Y + 2)) as [Hc|]; [|discriminate].
    intros H; inversion H; subst.
    rewrite nrows_trim, ncols_trim by lia. lia.
Qed.

(** The source term has the shape of the diffusion array. *)
Lemma source_term_shape (D_array Dx Dy gx gy v_t : matrix) :
  0 < nrows D_array ->
  nrows (source_term D_array Dx Dy gx gy v_t) = nrows D_array
  /\ ncols (source_term D_array Dx Dy gx gy v_t) = ncols D_array.
Proof.
  intros H. unfold source_term.
  rewrite !nrows_mat_map2, nrows_mat_scale.
  rewrite !ncols_mat_map2, ncols_mat_scale;
    rewrite ?nrows_mat_map2, ?nrows_mat_scale; try exact H.
  split; reflexivity.
Qed.

Lemma nth_kernel_radius (xs ys : list Z) (i j : nat) :
  i < List.length xs -> j < List.length ys ->
  let '(matx, maty) := meshgrid xs ys in
  mat_get (kernel_radius matx maty) j i
  = PrimFloat.sqrt (float_of_Z (nth i xs 0 ^ 2 + nth j ys 0 ^ 2)%Z).
Proof.
  intros Hi Hj. unfold meshgrid, mat_get, kernel_radius.
  set (F := fun rows : list Z * list Z =>
              map (fun p => PrimFloat.sqrt (float_of_Z (fst p ^ 2 + snd p ^ 2)%Z))
                  (combine (fst rows) (snd rows))).
  rewrite (nth_indep _ [] (F ([], []))) by
    (rewrite length_map, length_combine, !length_map; lia).
  rewrite map_nth. rewrite combine_nth by (rewrite !length_map; reflexivity).
  unfold F; cbn [fst snd].
  rewrite (nth_indep (map (fun _ => xs) ys) [] ((fun _ : Z => xs) 0%Z))
    by (rewrite length_map; exact Hj).
  rewrite (map_nth (fun _ : Z => xs) ys 0%Z j).
  rewrite (nth_indep (map (fun y => map (fun _ => y) xs) ys) []
             ((fun y => map (fun _ : Z => y) xs) 0%Z))
    by (rewrite length_map; exact Hj).
  rewrite (map_nth (fun y => map (fun _ : Z => y) xs)).
  set (G := fun p : Z * Z => PrimFloat.sqrt (float_of_Z (fst p ^ 2 + snd p ^ 2)%Z)).
  rewrite (nth_indep _ 0%float (G (0%Z, 0%Z))) by
    (rewrite length_map, length_combine, length_map; lia).
  rewrite map_nth. rewrite combine_nth by (rewrite length_map; reflexivity).
  unfold G; cbn [fst snd].
  rewrite (nth_indep (map (fun _ => nth j ys 0%Z) xs) 0%Z
             ((fun _ : Z => nth j ys 0%Z) 0%Z))
    by (rewrite length_map; exact Hi).
  rewrite (map_nth (fun _ : Z => nth j ys 0%Z) xs 0%Z i). reflexivity.
Qed.

Lemma kernel_radius_shape (xs ys : list Z) :
  0 < List.length ys ->
  let '(matx, maty) := meshgrid xs ys in
  nrows (kernel_radius matx maty) = List.length ys
  /\ ncols (kernel_radius matx maty) = List.length xs.
Proof.
  intros Hys. unfold meshgrid, nrows, ncols, kernel_radius. split.
  - rewrite length_map, length_combine, !length_map. lia.
  - destruct ys as [|y ys]; [cbn in Hys; lia|]. cbn [map combine hd fst snd].
    rewrite length_map, length_combine, length_map. lia.
Qed.

(** The kernel of an electrode on an interior grid node is zero at that
    node. *)
Lemma distance_zero_entry (X Y : nat) (ex ey : Z) :
  (2 <= ex <= Z.of_nat X - 1)%Z ->
  (2 <= ey <= Z.of_nat Y - 1)%Z ->
  nrows (distance X Y ex ey) = X - 2
  /\ ncols (distance X Y ex ey) = Y - 2
  /\ mat_get (distance X Y ex ey) (Z.to_nat (ex - 2)) (Z.to_nat (ey - 2)) = 0%float.
Proof.
  intros Hx Hy. unfold distance.
  set (xs := map (fun x => (x - ex)%Z) (arange 2 (Z.of_nat X))).
  set (ys := map (fun y => (y - ey)%Z) (arange 2 (Z.of_nat Y))).
  assert (Hlx : List.length xs = X - 2)
    by (unfold xs; rewrite length_map, length_arange; lia).
  assert (Hly : List.length ys = Y - 2)
    by (unfold ys; rewrite length_map, length_arange; lia).
  pose proof (kernel_radius_shape xs ys) as Hshape.
  pose proof (nth_kernel_radius xs ys (Z.to_nat (ex - 2)) (Z.to_nat (ey - 2))) as Hget.
  destruct (meshgrid xs ys) as [matx maty].
  destruct Hshape as [Hr Hc]; [lia|].
  unfold transpose. rewrite Hr, Hc, Hlx, Hly.
  rewrite nrows_mat_build, ncols_mat_build by lia.
  split; [reflexivity|]. split; [reflexivity|].
  rewrite mat_get_mat_build by lia.
  rewrite Hget by lia.
  assert (Hxi : nth (Z.to_nat (ex - 2)) xs 0%Z = 0%Z).
  { unfold xs.
    rewrite (nth_indep _ 0%Z ((fun x => (x - ex)%Z) 0%Z))
      by (rewrite length_map, length_arange; lia).
    rewrite (map_nth (fun x => (x - ex)%Z)), nth_arange by lia. lia. }
  assert (Hyj : nth (Z.to_nat (ey - 2)) ys 0%Z = 0%Z).
  { unfold ys.
    rewrite (nth_indep _ 0%Z ((fun y => (y - ey)%Z) 0%Z))
      by (rewrite length_map, length_arange; lia).
    rewrite (map_nth (fun y => (y - ey)%Z)), nth_arange by lia. lia. }
  rewrite Hxi, Hyj. reflexivity.
Qed.

Lemma time_slice_shape (X Y : nat) (v : nat -> nat -> nat -> float) (t : nat) :
  0 < X -> nrows (time_slice X Y v t) = X /\ ncols (time_slice X Y v t) = Y.
Proof.
  intros HX. unfold time_slice.
  rewrite nrows_mat_build, ncols_mat_build by exact HX. split; reflexivity.
Qed.

(** With a spacing on the trainer and a grid of at least 2 x 2, a time step
    raises nothing and runs the electrode loop on its source term. *)
Lemma time_step_runs (self : PINN) (h : float) (X Y : nat)
    (v : nat -> nat -> nat -> float) (D_array Dx Dy : matrix)
    (elecpos : list (Z * Z)) (t : nat) (phie : matrix) :
  spacing self = Some h -> 2 <= X -> 2 <= Y ->
  time_step self X Y v D_array Dx Dy elecpos t phie
  = inr (electrode_loop (source_at h X Y v D_array Dx Dy t) X Y elecpos t phie).
Proof.
  intros Hs HX HY. unfold time_step, source_at, gradient. rewrite Hs.
  cbn [sum_attr sum_bind].
  destruct (time_slice_shape X Y v t) as [Hr Hc]; [lia|]. rewrite Hr, Hc.
  rewrite (proj2 (Nat.ltb_ge X 2)), (proj2 (Nat.ltb_ge Y 2)) by lia.
  reflexivity.
Qed.

Lemma fold_sum_bind_inr {A} (step : nat -> A -> exn + A) (F : nat -> A -> A)
    (l : list nat) :
  (forall t a, step t a = inr (F t a)) ->
  forall a,
    fold_left (fun acc t => sum_bind acc (step t)) l (inr a)
    = inr (fold_left (fun a' t => F t a') l a).
Proof.
  intros Hstep. induction l as [|t l IH]; intros a; cbn [fold_left sum_bind].
  - reflexivity.
  - rewrite Hstep. apply IH.
Qed.

(** What a run of [num_integration] that returns has gone through, and what
    it returns: an array of one row per electrode and one column per time
    step, whose entry (k, t) is the value of electrode k on the source term
    of time step t. *)
Lemma num_integration_returns (self : PINN) (v_pred : list float) (phie : matrix) :
  let dyn := dynamics self in
  let X := Dynamics.max_x dyn in
  let Y := Dynamics.max_y dyn in
  let tend := Dynamics.max_t dyn in
  let elecpos := Dynamics.elecpos dyn in
  num_integration self v_pred = inr phie ->
  exists v h D_array Dx Dy,
    reshape3 tend X Y v_pred = inr v
    /\ diffusion_array (Dynamics.D dyn) X Y = Some D_array
    /\ spacing self = Some h
    /\ gradient D_array h = inr (Dx, Dy)
    /\ nrows D_array = X /\ ncols D_array = Y /\ 2 <= X /\ 2 <= Y
    /\ has_shape (List.length elecpos) tend phie
    /\ forall k t, k < List.length elecpos -> t < tend ->
         mat_get phie k t
         = electrode_value (source_at h X Y v D_array Dx Dy t) X Y
                           (nth k elecpos (0, 0)%Z).
Proof.
  intros dyn X Y tend elecpos. unfold num_integration.
  fold dyn. fold X. fold Y. fold tend. fold elecpos.
  destruct (reshape3 tend X Y v_pred) as [e|v]; [discriminate|].
  destruct (diffusion_array (Dynamics.D dyn) X Y) as [D_array|] eqn:HD; [|discriminate].
  destruct (spacing self) as [h|] eqn:Hs; [|discriminate].
  cbn [sum_bind sum_local sum_attr].
  destruct (gradient D_array h) as [e|[Dx Dy]] eqn:Hg; [discriminate|].
  cbn [sum_bind].
  assert (Hshape : nrows D_array = X /\ ncols D_array = Y /\ 2 <= X /\ 2 <= Y).
  { unfold gradient in Hg.
    destruct (nrows D_array <? 2) eqn:Hr; [discriminate|].
    destruct (ncols D_array <? 2) eqn:Hc; [discriminate|].
    apply Nat.ltb_ge in Hr, Hc.
    assert (HX : 0 < X).
    { destruct X as [|X']; [|lia]. exfalso.
      unfold diffusion_array in HD. destruct (Dynamics.D dyn) as [c|a].
      - inversion HD; subst. unfold ones in Hr.
        rewrite nrows_mat_scale, nrows_mat_build in Hr. lia.
      - destruct (Nat.eqb_spec (nrows a) (0 + 2)) as [Ha|]; [|discriminate].
        destruct (ncols a =? Y + 2); [|discriminate].
        inversion HD; subst. rewrite nrows_trim in Hr. lia. }
    destruct (diffusion_array_shape _ _ _ _ HX HD) as [H1 H2]. lia. }
  destruct Hshape as (HrD & HcD & HX & HY).
  rewrite (fold_sum_bind_inr _
             (fun t ph => electrode_loop (source_at h X Y v D_array Dx Dy t)
                                         X Y elecpos t ph))
    by (intros t a; apply time_step_runs; assumption).
  intros H; inversion H as [Hphie]; clear H.
  exists v, h, D_array, Dx, Dy.
  repeat (split; [first [reflexivity | assumption]|]).
  pose proof (fill_columns (List.length elecpos) tend
                (fun t k => electrode_value (source_at h X Y v D_array Dx Dy t) X Y
                                            (nth k elecpos (0, 0)%Z))
                tend (zeros (List.length elecpos) tend)
                (has_shape_mat_build _ _ _) (Nat.le_refl _)) as [Hsh Hget].
  cbn zeta in Hsh, Hget. split; [exact Hsh|].
  intros k t Hk Ht. unfold electrode_loop. rewrite Hget.
  rewrite (proj2 (Nat.ltb_lt k _) Hk), (proj2 (Nat.ltb_lt t _) Ht). reflexivity.
Qed.

(** The result of a run that returns has one row per electrode column and
    one column per time step. *)
Lemma num_integration_shape (self : PINN) (v_pred : list float) (phie : matrix) :
  num_integration self v_pred = inr phie ->
  has_shape (List.length (Dynamics.elecpos (dynamics self)))
            (Dynamics.max_t (dynamics self)) phie.
Proof.
  intros H. destruct (num_integration_returns self v_pred phie H)
    as (v & h & D_array & Dx & Dy & _ & _ & _ & _ & _ & _ & _ & _ & Hshape & _).
  exact Hshape.
Qed.

(** C8. The spacing that [num_integration] consumes is the trainer's own
    attribute, which no method assigns: a trainer as constructed never
    completes a reconstruction (it stops at the reshape, at the unassigned
    diffusion array, or at the missing attribute), whatever spacing the
    dynamics collaborator supplies; the spacing of the collaborator is never
    read; and on the sample grid, whose dynamics supplies spacing 1.0, the
    run stops with the attribute error. *)
Theorem reconstruction_reads_trainer_spacing (dyn : Dynamics.t) (d : Z) (h : bool)
    (inv : option string) (v_pred : list float) (s : float) (p : PINN) :
  (num_integration (__init__ dyn d h inv) v_pred = inl (ValueError reshape_message)
   \/ num_integration (__init__ dyn d h inv) v_pred = inl (UnboundLocalError "D_array")
   \/ num_integration (__init__ dyn d h inv) v_pred = inl (AttributeError "spacing"))
  /\ num_integration (with_dynamics_spacing s p) v_pred = num_integration p v_pred
  /\ num_integration (__init__ sample_dynamics 2 false None) uniform_field
     = inl (AttributeError "spacing").
Proof.
  split; [|split].
  - rewrite init_closed_form. unfold num_integration.
    cbn [dynamics spacing]. unfold reshape3.
    destruct (_ =? _); [|left; reflexivity].
    destruct (diffusion_array _ _ _); [|right; left; reflexivity].
    right; right; reflexivity.
  - reflexivity.
  - vm_compute. reflexivity.
Qed.

(** C9. A uniform field with a scalar diffusion coefficient, on the sample
    grid with its electrode on the node (2, 2): the trainer as constructed
    returns no potential at all, and once a caller has set the missing
    attribute the potential of the electrode is NaN, not zero. *)
Theorem uniform_field_potential_is_not_zero :
  num_integration (__init__ sample_dynamics 2 false None) uniform_field
  = inl (AttributeError "spacing")
  /\ num_integration (with_spacing 1 (__init__ sample_dynamics 2 false None))
                     uniform_field
     = inr [[nan]]
  /\ PrimFloat.eqb nan 0 = false.
Proof. repeat split; vm_compute; reflexivity. Qed.

(** C10. In every run of [num_integration] that returns, for every time
    step and every electrode whose integer coordinates lie on an interior
    grid node (2 <= ex <= max_x - 1, 2 <= ey <= max_y - 1): the distance
    kernel of the electrode is zero at the entry (ex - 2, ey - 2), the
    quotient has that entry and it is the trimmed source term there divided
    by that zero, and the stored potential is minus the double trapezoid
    integral of that quotient. *)
Theorem kernel_division_by_zero (self : PINN) (v_pred : list float) (phie : matrix)
    (k t : nat) (ex ey : Z) :
  let dyn := dynamics self in
  let X := Dynamics.max_x dyn in
  let Y := Dynamics.max_y dyn in
  let i := Z.to_nat (ex - 2) in
  let j := Z.to_nat (ey - 2) in
  num_integration self v_pred = inr phie ->
  nth_error (Dynamics.elecpos dyn) k = Some (ex, ey) ->
  (2 <= ex <= Z.of_nat X - 1)%Z ->
  (2 <= ey <= Z.of_nat Y - 1)%Z ->
  t < Dynamics.max_t dyn ->
  exists du,
    nrows du = X /\ ncols du = Y
    /\ mat_get (distance X Y ex ey) i j = 0%float
    /\ i < nrows (quotient du X Y (ex, ey))
    /\ j < ncols (quotient du X Y (ex, ey))
    /\ mat_get (quotient du X Y (ex, ey)) i j
       = PrimFloat.div (mat_get du (i + 1) (j + 1)) 0%float
    /\ mat_get phie k t
       = PrimFloat.opp (trapezoid (trapezoid_axis0 (quotient du X Y (ex, ey)))).
Proof.
  intros dyn X Y i j Hrun Hk Hex Hey Ht.
  destruct (num_integration_returns self v_pred phie Hrun)
    as (v & h & D_array & Dx & Dy & _ & _ & _ & _ & HrD & HcD & _ & _ & _ & Hget).
  fold dyn in HrD, HcD, Hget. fold X in HrD, HcD, Hget. fold Y in HrD, HcD, Hget.
  assert (Hlen : k < List.length (Dynamics.elecpos dyn))
    by (apply nth_error_Some; rewrite Hk; discriminate).
  assert (Hnth : nth k (Dynamics.elecpos dyn) (0, 0)%Z = (ex, ey))
    by (apply nth_error_nth; exact Hk).
  set (du := source_at h X Y v D_array Dx Dy t).
  destruct (source_term_shape D_array Dx Dy
              (gradient_axis0 (time_slice X Y v t) h)
              (gradient_axis1 (time_slice X Y v t) h) (time_slice X Y v t))
    as [Hr Hc]; [lia|].
  fold (source_at h X Y v D_array Dx Dy t) in Hr, Hc. fold du in Hr, Hc.
  destruct (distance_zero_entry X Y ex ey Hex Hey) as (Hdr & Hdc & Hzero).
  fold i in Hzero. fold j in Hzero.
  assert (Hi : i < X - 2) by (unfold i; lia).
  assert (Hj : j < Y - 2) by (unfold j; lia).
  assert (Hqr : nrows (quotient du X Y (ex, ey)) = X - 2)
    by (unfold quotient; rewrite nrows_mat_map2, nrows_trim; lia).
  assert (Hqc : ncols (quotient du X Y (ex, ey)) = Y - 2)
    by (unfold quotient; rewrite ncols_mat_map2, ncols_trim;
        rewrite ?nrows_trim; lia).
  exists du. rewrite Hqr, Hqc.
  repeat (split; [first [assumption | lia]|]).
  split.
  - unfold quotient, mat_map2. cbn [fst snd].
    rewrite mat_get_mat_build by (rewrite ?nrows_trim, ?ncols_trim; lia).
    rewrite mat_get_trim by lia. rewrite Hzero. reflexivity.
  - rewrite (Hget k t Hlen Ht), Hnth. reflexivity.
Qed.

Lemma kernel_division_by_zero_witness :
  exists du,
    nrows du = 4 /\ ncols du = 4
    /\ mat_get (distance 4 4 2 2) 0 0 = 0%float
    /\ 0 < nrows (quotient du 4 4 (2, 2)%Z)
    /\ 0 < ncols (quotient du 4 4 (2, 2)%Z)
    /\ mat_get (quotient du 4 4 (2, 2)%Z) 0 0
       = PrimFloat.div (mat_get du (0 + 1) (0 + 1)) 0%float
    /\ mat_get [[nan]] 0 0
       = PrimFloat.opp (trapezoid (trapezoid_axis0 (quotient du 4 4 (2, 2)%Z))).
Proof.
  refine (kernel_division_by_zero
            (with_spacing 1 (__init__ sample_dynamics 2 false None))
            uniform_field [[nan]] 0 0 2%Z 2%Z _ _ _ _ _).
  - vm_compute. reflexivity.
  - reflexivity.
  - cbn. lia.
  - cbn. lia.
  - cbn. lia.
Defined.

(** * Further properties of the code *)

(** ** The maximum of a loss vector *)

Lemma SFcompare_refl (s : spec_float) :
  s <> S754_nan -> SFcompare s s = Some Eq.
Proof.
  destruct s as [b|b| |b m e]; intros H; cbn; try reflexivity; try congruence.
  - destruct b; reflexivity.
  - rewrite Z.compare_refl, Pos.compare_cont_refl. destruct b; reflexivity.
Qed.

(** A comparison that holds has no NaN on either side. *)
Lemma ltb_not_nan (m y : float) :
  PrimFloat.ltb m y = true ->
  PrimFloat.is_nan m = false /\ PrimFloat.is_nan y = false.
Proof.
  rewrite ltb_spec. unfold PrimFloat.is_nan. rewrite !eqb_spec.
  unfold SFltb, SFeqb. intros H.
  assert (Prim2SF m <> S754_nan /\ Prim2SF y <> S754_nan) as [Hm Hy].
  { split; intros E; rewrite E in H;
      destruct (Prim2SF m), (Prim2SF y); cbn in H; discriminate. }
  rewrite !SFcompare_refl by assumption. split; reflexivity.
Qed.

Lemma fold_max_step (l : list float) :
  forall x,
    In (fold_left max_step l x) (x :: l)
    /\ PrimFloat.is_nan (fold_left max_step l x) = PrimFloat.is_nan x.
Proof.
  induction l as [|y l IH]; intros x; cbn [fold_left].
  - split; [left; reflexivity|reflexivity].
  - destruct (IH (max_step x y)) as [Hin Hnan]. split.
    + destruct Hin as [Hin|Hin]; [|right; right; exact Hin].
      rewrite <- Hin. unfold max_step.
      destruct (PrimFloat.ltb x y); [right; left|left]; reflexivity.
    + rewrite Hnan. unfold max_step.
      destruct (PrimFloat.ltb x y) eqn:Hlt; [|reflexivity].
      destruct (ltb_not_nan x y Hlt) as [Hx Hy]. rewrite Hx, Hy. reflexivity.
Qed.

(** X1. [max] of a non-empty loss vector is one of its components, and it is
    NaN exactly when the first component is NaN: a NaN in any later position
    is never the maximum, and a leading NaN always is. *)
Theorem max_loss_is_nan_iff_first_is (x : float) (l : list float) :
  exists m,
    py_max (x :: l) = inr m
    /\ In m (x :: l)
    /\ PrimFloat.is_nan m = PrimFloat.is_nan x.
Proof.
  exists (fold_left max_step l x). split; [reflexivity|]. apply fold_max_step.
Qed.

(** X2. A first-epoch loss vector whose first component is not NaN and none
    of whose components is above [MAX_LOSS] is accepted by [stable_init] on
    the first attempt, with one training run and no reinitialisation, also
    when later components are NaN. *)
Theorem nan_after_first_component_is_accepted (eng : engine) (fuel : nat)
    (w : world) (x : float) (l : list float) :
  assembled (self_of w) = true ->
  eng (trainings (trace w)) = x :: l ->
  PrimFloat.is_nan x = false ->
  (forall y, In y (x :: l) ->
             PrimFloat.ltb (float_of_Z (MAX_LOSS (self_of w))) y = false) ->
  stable_init eng fuel w
  = (Return 0%Z, mkWorld (self_of w) (trace w ++ [train_run (Some 1%Z) None []])).
Proof.
  intros Hasm Heng Hx Hle.
  destruct (fold_max_step l x) as [Hin Hnan].
  apply (stable_init_accepts_first eng fuel w (fold_left max_step l x) Hasm).
  - rewrite Heng. reflexivity.
  - unfold rejected. rewrite (Hle _ Hin), Hnan, Hx. reflexivity.
Qed.

Lemma nan_after_first_component_is_accepted_witness :
  stable_init (replay [[1%float; nan; nan]] [nan]) 16 (assembled_world 2 false None)
  = (Return 0%Z,
     mkWorld (self_of (assembled_world 2 false None))
             (trace (assembled_world 2 false None) ++ [train_run (Some 1%Z) None []])).
Proof.
  apply (nan_after_first_component_is_accepted
           (replay [[1%float; nan; nan]] [nan]) 16
           (assembled_world 2 false None) 1%float [nan; nan]).
  - reflexivity.
  - reflexivity.
  - reflexivity.
  - intros y [Hy|[Hy|[Hy|[]]]]; subst y; reflexivity.
Defined.

(** ** Stabilised initialisation, beyond the configured limit of 16 *)

(** X3. Acceptance at attempt [a], for every attempt from the first up to
    the limit (the first attempt is accepted whatever the limit is): when
    the losses of the attempts before [a] are rejected and the loss of
    attempt [a] is not, [stable_init] returns 0 after exactly [a] training
    runs and [a - 1] reinitialisations. *)
Theorem acceptance_at_attempt (eng : engine) (fuel : nat) (w : world) (a : nat) :
  assembled (self_of w) = true ->
  1 <= a ->
  a = 1 \/ (Z.of_nat a <= MAX_MODEL_INIT (self_of w))%Z ->
  a - 1 <= fuel ->
  (forall k, k < a - 1 ->
     exists x, py_max (eng (trainings (trace w) + k)) = inr x
               /\ rejected (self_of w) x = true) ->
  (exists x, py_max (eng (trainings (trace w) + (a - 1))) = inr x
             /\ rejected (self_of w) x = false) ->
  exists w',
    stable_init eng fuel w = (Return 0%Z, w')
    /\ trainings (trace w') = trainings (trace w) + a
    /\ models (trace w') = models (trace w) + (a - 1).
Proof.
  intros Hasm Ha Hlimit Hfuel Hrej Hacc.
  destruct (Nat.eq_dec a 1) as [->|Hne].
  - destruct Hacc as (x & Hx & Hok). cbn [Nat.sub] in Hx.
    rewrite Nat.add_0_r in Hx.
    rewrite (stable_init_accepts_first eng fuel w x Hasm Hx Hok).
    eexists. split; [reflexivity|]. cbn [trace].
    rewrite trainings_app, models_app.
    change (trainings [train_run (Some 1%Z) None []]) with 1.
    change (models [train_run (Some 1%Z) None []]) with 0. lia.
  - destruct Hlimit as [H1|Hlimit]; [contradiction|].
    apply (stable_init_accepts_within_limit eng fuel w a Hasm);
      try assumption; lia.
Qed.

Lemma acceptance_at_attempt_witness :
  exists w',
    stable_init (replay [[nan]; [5%float]; [3.9%float]] [nan]) 2
                (assembled_world 2 false None)
    = (Return 0%Z, w')
    /\ trainings (trace w') = trainings (trace (assembled_world 2 false None)) + 3
    /\ models (trace w') = models (trace (assembled_world 2 false None)) + (3 - 1).
Proof.
  apply (acceptance_at_attempt (replay [[nan]; [5%float]; [3.9%float]] [nan]) 2
           (assembled_world 2 false None) 3).
  - reflexivity.
  - lia.
  - right. vm_compute. discriminate.
  - cbn. lia.
  - intros k Hk. destruct k as [|[|k]].
    + exists nan. split; reflexivity.
    + exists 5%float. split; reflexivity.
    + cbn in Hk. lia.
  - exists 3.9%float. split; reflexivity.
Defined.

(** X4. For any configured limit: let [r] be [MAX_MODEL_INIT], or 1 when the
    limit is below 1.  When the losses of the first [r] training runs are
    rejected, [stable_init] performs exactly [r] reinitialisations and
    [r + 1] training runs and raises the error of the exceeded limit; the
    loss of the last run is not looked at, and a limit of 1 or less still
    reinitialises once. *)
Theorem limit_allows_one_more_training (eng : engine) (fuel : nat) (w : world) :
  let r := 1 + Z.to_nat (MAX_MODEL_INIT (self_of w) - 1) in
  assembled (self_of w) = true ->
  r <= fuel ->
  (forall n, exists x, py_max (eng n) = inr x) ->
  (forall n x, n < trainings (trace w) + r -> py_max (eng n) = inr x ->
               rejected (self_of w) x = true) ->
  exists w',
    stable_init eng fuel w = (Raise (ValueError limit_message), w')
    /\ trainings (trace w') = trainings (trace w) + (r + 1)
    /\ models (trace w') = models (trace w) + r.
Proof.
  intros r Hasm Hfuel Hdef Hrej. subst r.
  destruct (assembled_model _ Hasm) as (m & Hm).
  rewrite stable_init_unfold, Hm.
  destruct (Hdef (trainings (trace w))) as (x & Hx). rewrite Hx. cbn zeta.
  destruct (stable_init_loop_exhausts fuel eng x 1
              (mkWorld (self_of w) (trace w ++ [train_run (Some 1%Z) None []]))
              (Nat.add (trainings (trace w ++ [train_run (Some 1%Z) None []]))
                       (Z.to_nat (MAX_MODEL_INIT (self_of w) - 1))))
    as (w' & Hloop & Htrain & Hmodel); cbn [self_of trace].
  - exact Hasm.
  - apply (Hrej (trainings (trace w)) x); [lia|exact Hx].
  - exact Hdef.
  - reflexivity.
  - intros n y Hn Hy. apply (Hrej n y); [|exact Hy].
    revert Hn. rewrite trainings_app.
    change (trainings [train_run (Some 1%Z) None []]) with 1. lia.
  - exact Hfuel.
  - rewrite Hloop. exists w'. split; [reflexivity|].
    revert Htrain Hmodel. cbn [self_of trace].
    rewrite trainings_app, models_app.
    change (trainings [train_run (Some 1%Z) None []]) with 1.
    change (models [train_run (Some 1%Z) None []]) with 0. lia.
Qed.

Lemma limit_allows_one_more_training_witness :
  exists w',
    stable_init (replay [] [nan]) 1
      (mkWorld (with_limit 0 (self_of (assembled_world 1 false None)))
               (trace (assembled_world 1 false None)))
    = (Raise (ValueError limit_message), w')
    /\ trainings (trace w')
       = trainings (trace (assembled_world 1 false None)) + (1 + 1)
    /\ models (trace w') = models (trace (assembled_world 1 false None)) + 1.
Proof.
  apply (limit_allows_one_more_training (replay [] [nan]) 1
           (mkWorld (with_limit 0 (self_of (assembled_world 1 false None)))
                    (trace (assembled_world 1 false None)))).
  - reflexivity.
  - cbn. lia.
  - intros n. exists nan. unfold replay. destruct n; reflexivity.
  - intros n x _ Hx. unfold replay in Hx.
    assert (x = nan) by (destruct n; cbn in Hx; inversion Hx; reflexivity).
    subst x. reflexivity.
Defined.

Lemma reinit_calls_set_model (m : nat) (p : PINN) :
  reinit_calls (set_model m p) = reinit_calls p.
Proof. reflexivity. Qed.

(** What the loop adds to the log and does to the object, for every outcome. *)
Lemma stable_init_loop_log (fuel : nat) :
  forall (eng : engine) (loss : float) (num : Z) (w : world)
         (r : outcome unit) (w' : world),
    assembled (self_of w) = true ->
    stable_init_loop eng fuel loss num w = (r, w') ->
    exists k,
      k <= fuel
      /\ trace w' = trace w ++ List.concat (repeat (reinit_calls (self_of w)) k)
      /\ self_of w' = match k with
                      | O => self_of w
                      | S k' => set_model (models (trace w) + k') (self_of w)
                      end.
Proof.
  induction fuel as [|fuel IH]; intros eng loss num w r w' Hasm;
    rewrite stable_init_loop_unfold; destruct (rejected (self_of w) loss);
    try (intros H; inversion H; subst; exists 0; cbn [repeat List.concat];
         rewrite app_nil_r; repeat split; lia).
  rewrite (retrain_assembled eng w Hasm).
  assert (Hone :
             exists k, k <= S fuel
               /\ trace w ++ reinit_calls (self_of w)
                  = trace w ++ List.concat (repeat (reinit_calls (self_of w)) k)
               /\ set_model (models (trace w)) (self_of w)
                  = match k with
                    | O => self_of w
                    | S k' => set_model (models (trace w) + k') (self_of w)
                    end).
  { exists 1. cbn [repeat List.concat]. rewrite app_nil_r, Nat.add_0_r.
    repeat split; lia. }
  destruct (py_max (eng (trainings (trace w)))) as [e|x];
    [intros H; inversion H; subst; cbn [self_of trace]; exact Hone|].
  cbn [self_of MAX_MODEL_INIT set_model].
  destruct (num + 1 >? MAX_MODEL_INIT (self_of w))%Z;
    [intros H; inversion H; subst; cbn [self_of trace]; exact Hone|].
  intros Hloop. apply IH in Hloop; [|apply assembled_set_model, Hasm].
  destruct Hloop as (k & Hk & Htrace & Hself).
  cbn [self_of trace] in Htrace, Hself. rewrite reinit_calls_set_model in Htrace.
  exists (S k). split; [lia|]. split.
  - rewrite Htrace. cbn [repeat List.concat]. rewrite <- !app_assoc. reflexivity.
  - rewrite Hself. destruct k as [|k'].
    + rewrite Nat.add_0_r. reflexivity.
    + rewrite models_app, models_reinit_calls, set_model_idem.
      f_equal. lia.
Qed.

(** X5. Whatever the engine reports and however [stable_init] ends, on an
    assembled trainer it adds to the log one one-epoch training run followed
    by some number [k] of reinitialisations, each of them a new model, a
    compile with Adam at the configured rate and default loss weights, and a
    one-epoch training run without save path or callbacks; nothing else is
    called.  The object is unchanged apart from its model, which is the
    model built last. *)
Theorem stable_init_log (eng : engine) (fuel : nat) (w w' : world)
    (r : outcome Z) :
  assembled (self_of w) = true ->
  stable_init eng fuel w = (r, w') ->
  exists k,
    k <= fuel
    /\ trace w'
       = trace w ++ train_run (Some 1%Z) None []
                    :: List.concat (repeat (reinit_calls (self_of w)) k)
    /\ self_of w' = match k with
                    | O => self_of w
                    | S k' => set_model (models (trace w) + k') (self_of w)
                    end.
Proof.
  intros Hasm. destruct (assembled_model _ Hasm) as (m & Hm).
  rewrite stable_init_unfold, Hm. cbn zeta.
  destruct (py_max (eng (trainings (trace w)))) as [e|x].
  - intros H; inversion H; subst. exists 0. cbn [repeat List.concat self_of trace].
    repeat split; lia.
  - destruct (stable_init_loop eng fuel x 1
                (mkWorld (self_of w) (trace w ++ [train_run (Some 1%Z) None []])))
      as [r1 w1] eqn:Hloop.
    apply stable_init_loop_log in Hloop; [|exact Hasm].
    destruct Hloop as (k & Hk & Htrace & Hself).
    cbn [self_of trace] in Htrace, Hself.
    assert (Hmodels : models (trace w ++ [train_run (Some 1%Z) None []])
                      = models (trace w))
      by (rewrite models_app; change (models [train_run (Some 1%Z) None []]) with 0;
          lia).
    rewrite Hmodels in Hself.
    intros H. exists k. split; [exact Hk|].
    destruct r1 as [u|e|]; inversion H; subst;
      (split; [rewrite Htrace, <- app_assoc; reflexivity | exact Hself]).
Qed.

Lemma stable_init_log_witness :
  exists k,
    k <= 16
    /\ trace (snd (stable_init (replay [[nan]; [5%float]; [3.9%float]] [nan]) 16
                     (assembled_world 2 false None)))
       = trace (assembled_world 2 false None)
         ++ train_run (Some 1%Z) None []
            :: List.concat (repeat (reinit_calls (self_of (assembled_world 2 false None))) k)
    /\ self_of (snd (stable_init (replay [[nan]; [5%float]; [3.9%float]] [nan]) 16
                       (assembled_world 2 false None)))
       = match k with
         | O => self_of (assembled_world 2 false None)
         | S k' => set_model (models (trace (assembled_world 2 false None)) + k')
                             (self_of (assembled_world 2 false None))
         end.
Proof.
  apply (stable_init_log (replay [[nan]; [5%float]; [3.9%float]] [nan]) 16
           (assembled_world 2 false None) _
           (fst (stable_init (replay [[nan]; [5%float]; [3.9%float]] [nan]) 16
                   (assembled_world 2 false None)))).
  - reflexivity.
  - apply surjective_pairing.
Defined.

(** ** Assembly and training together *)

(** The world that [define_pinn] leaves for a listed configuration. *)
Lemma define_pinn_listed (p : PINN) (g i o : handle) (r : residual)
    (tr : option transform) :
  residual_table (dim p) (heter p) (inverse_has_d (inverse p)) = Some (r, tr) ->
  define_pinn g i o (mkWorld p [])
  = (Return 0%Z,
     mkWorld (set_model 0 (set_pde_data r (set_net (layer_sizes_of p) p)))
             (assembly_log p g i o r tr)).
Proof.
  unfold residual_table, assembly_log. intros Htable.
  run_monad.
  destruct (dim p =? 1)%Z eqn:H1.
  - inversion Htable; subst. reflexivity.
  - destruct (dim p =? 2)%Z eqn:H2; [|discriminate].
    destruct (heter p) eqn:Hh; cbn [andb negb].
    + destruct (inverse_has_d (inverse p)); inversion Htable; subst; reflexivity.
    + inversion Htable; subst. reflexivity.
Qed.

Lemma trainings_assembly_log (p : PINN) (g i o : handle) (r : residual)
    (tr : option transform) :
  trainings (assembly_log p g i o r tr) = 0.
Proof. destruct tr; reflexivity. Qed.

(** X6. Assembly followed by training, for every listed configuration and
    an engine whose first one-epoch loss is acceptable: [define_pinn]
    returns 0, and [train] then returns the model built by the assembly
    (model 0) and the last training run, having added to the assembly log
    the one-epoch run of the stabilisation and then the single phase (1D)
    or the three phases (2D), and nothing else. *)
Theorem assemble_then_train (p : PINN) (g i o out_path params : handle)
    (eng : engine) (fuel : nat) (r : residual) (tr : option transform) (x : float) :
  residual_table (dim p) (heter p) (inverse_has_d (inverse p)) = Some (r, tr) ->
  py_max (eng 0) = inr x ->
  rejected p x = false ->
  exists w1,
    define_pinn g i o (mkWorld p []) = (Return 0%Z, w1)
    /\ train eng fuel out_path params w1
       = (Return (0, if (dim p =? 1)%Z then 1 else 3),
          mkWorld (self_of w1)
                  (assembly_log p g i o r tr
                   ++ train_run (Some 1%Z) None []
                      :: (if (dim p =? 1)%Z then spec_one_phase p out_path params
                          else spec_three_phase p out_path params))).
Proof.
  intros Htable Hx Hok.
  rewrite (define_pinn_listed p g i o r tr Htable).
  eexists. split; [reflexivity|].
  set (p1 := set_model 0 (set_pde_data r (set_net (layer_sizes_of p) p))).
  set (log := assembly_log p g i o r tr).
  assert (Hstable :
            stable_init eng fuel (mkWorld p1 log)
            = (Return 0%Z, mkWorld p1 (log ++ [train_run (Some 1%Z) None []]))).
  { apply (stable_init_accepts_first eng fuel (mkWorld p1 log) x).
    - reflexivity.
    - cbn [trace]. unfold log. rewrite trainings_assembly_log. exact Hx.
    - exact Hok. }
  assert (Hcount : trainings (log ++ [train_run (Some 1%Z) None []]) = 1).
  { rewrite trainings_app. unfold log. rewrite trainings_assembly_log. reflexivity. }
  unfold train, bind, get_self. rewrite Hstable. cbn [self_of trace].
  change (dim p1) with (dim p).
  unfold residual_table in Htable.
  destruct (dim p =? 1)%Z eqn:H1.
  - rewrite (train_1_phase_calls p1 _ out_path params 0 eq_refl), Hcount.
    unfold attr, local, ret. cbn [self_of]. change (model p1) with (Some 0).
    rewrite <- app_assoc. reflexivity.
  - destruct (dim p =? 2)%Z eqn:H2; [|discriminate].
    rewrite (train_3_phase_calls p1 _ out_path params 0 eq_refl), Hcount.
    unfold attr, local, ret. cbn [self_of]. change (model p1) with (Some 0).
    rewrite <- app_assoc. reflexivity.
Qed.

Lemma assemble_then_train_witness :
  exists w1,
    define_pinn "geomtime" "input_data" "observe_train"
                (mkWorld (__init__ sample_dynamics 1 false (Some "a")) [])
    = (Return 0%Z, w1)
    /\ train (replay [] [1%float]) 0 "out_path" "params" w1
       = (Return (0, if (dim (__init__ sample_dynamics 1 false (Some "a")) =? 1)%Z
                     then 1 else 3),
          mkWorld (self_of w1)
                  (assembly_log (__init__ sample_dynamics 1 false (Some "a"))
                                "geomtime" "input_data" "observe_train" pde_1D None
                   ++ train_run (Some 1%Z) None []
                      :: (if (dim (__init__ sample_dynamics 1 false (Some "a")) =? 1)%Z
                          then spec_one_phase
                                 (__init__ sample_dynamics 1 false (Some "a"))
                                 "out_path" "params"
                          else spec_three_phase
                                 (__init__ sample_dynamics 1 false (Some "a"))
                                 "out_path" "params"))).
Proof.
  apply (assemble_then_train (__init__ sample_dynamics 1 false (Some "a"))
           "geomtime" "input_data" "observe_train" "out_path" "params"
           (replay [] [1%float]) 0 pde_1D None 1%float).
  - reflexivity.
  - reflexivity.
  - reflexivity.
Defined.

(** X7. [train] needs the model that [define_pinn] builds: on every trainer
    as constructed, whatever the log holds, [train] raises [AttributeError]
    for [model] before any call reaches the engine. *)
Theorem train_before_assembly (dyn : Dynamics.t) (d : Z) (h : bool)
    (inv : option string) (eng : engine) (fuel : nat)
    (out_path params : handle) (log : list call) :
  train eng fuel out_path params (mkWorld (__init__ dyn d h inv) log)
  = (Raise (AttributeError "model"), mkWorld (__init__ dyn d h inv) log).
Proof.
  unfold train, bind. rewrite stable_init_unfold.
  cbn [self_of]. rewrite init_closed_form. reflexivity.
Qed.

(** ** Potential-field reconstruction, beyond the kernel *)

(** X8. Whenever [num_integration] returns, its result has one row per
    electrode column and every row has one entry per time step. *)
Theorem reconstruction_result_shape (self : PINN) (v_pred : list float)
    (phie : matrix) :
  num_integration self v_pred = inr phie ->
  List.length phie = List.length (Dynamics.elecpos (dynamics self))
  /\ Forall (fun row => List.length row = Dynamics.max_t (dynamics self)) phie.
Proof.
  intros H. destruct (num_integration_shape self v_pred phie H) as [Hlen Hrows].
  split; [exact Hlen|]. apply Forall_forall. intros row Hin.
  destruct (In_nth _ _ [] Hin) as (k & Hk & Hnth). rewrite <- Hnth.
  apply Hrows. rewrite <- Hlen. exact Hk.
Qed.

Lemma reconstruction_result_shape_witness :
  List.length [[nan]]
  = List.length (Dynamics.elecpos
                   (dynamics (with_spacing 1 (__init__ sample_dynamics 2 false None))))
  /\ Forall (fun row =>
               List.length row
               = Dynamics.max_t
                   (dynamics (with_spacing 1 (__init__ sample_dynamics 2 false None))))
            [[nan]].
Proof.
  apply (reconstruction_result_shape
           (with_spacing 1 (__init__ sample_dynamics 2 false None)) uniform_field).
  vm_compute. reflexivity.
Defined.

(** X9. [num_integration] returns a result exactly when the prediction has
    max_t * max_x * max_y entries, D is a scalar or an array of shape
    (max_x + 2, max_y + 2), the trainer has the attribute [spacing], and the
    grid has at least two nodes along each axis; in every other case it
    raises. *)
Theorem reconstruction_returns_iff (self : PINN) (v_pred : list float) :
  let dyn := dynamics self in
  let X := Dynamics.max_x dyn in
  let Y := Dynamics.max_y dyn in
  let tend := Dynamics.max_t dyn in
  (exists phie, num_integration self v_pred = inr phie)
  <-> (List.length v_pred = tend * X * Y
       /\ diffusion_fits (Dynamics.D dyn) X Y = true
       /\ (exists h, spacing self = Some h)
       /\ 2 <= X /\ 2 <= Y).
Proof.
  intros dyn X Y tend. split.
  - intros (phie & Hrun).
    destruct (num_integration_returns self v_pred phie Hrun)
      as (v & h & D_array & Dx & Dy & Hv & HD & Hs & _ & _ & _ & HX & HY & _).
    fold dyn in Hv, HD, HX, HY. fold X in Hv, HD, HX, HY. fold Y in Hv, HD, HX, HY.
    fold tend in Hv.
    repeat split; try assumption.
    + unfold reshape3 in Hv. destruct (Nat.eqb_spec (List.length v_pred) (tend * X * Y));
        [assumption|discriminate].
    + unfold diffusion_array in HD. unfold diffusion_fits.
      destruct (Dynamics.D dyn) as [c|a]; [reflexivity|].
      destruct ((nrows a =? X + 2) && (ncols a =? Y + 2)); [reflexivity|discriminate].
    + exists h. exact Hs.
  - intros (Hlen & HD & (h & Hs) & HX & HY).
    unfold num_integration. fold dyn. fold X. fold Y. fold tend.
    unfold reshape3. rewrite (proj2 (Nat.eqb_eq _ _) Hlen). cbn [sum_bind].
    assert (HDa : exists D_array, diffusion_array (Dynamics.D dyn) X Y = Some D_array).
    { unfold diffusion_array. unfold diffusion_fits in HD.
      destruct (Dynamics.D dyn) as [c|a]; [eexists; reflexivity|].
      rewrite HD. eexists; reflexivity. }
    destruct HDa as (D_array & HDa). rewrite HDa, Hs. cbn [sum_bind sum_local sum_attr].
    destruct (diffusion_array_shape _ _ _ _ (Nat.lt_le_trans 0 2 X Nat.lt_0_2 HX) HDa)
      as [Hr Hc].
    unfold gradient. rewrite Hr, Hc.
    rewrite (proj2 (Nat.ltb_ge X 2)), (proj2 (Nat.ltb_ge Y 2)) by lia.
    cbn [orb sum_bind].
    rewrite (fold_sum_bind_inr _
               (fun t ph =>
                  electrode_loop
                    (source_at h X Y
                       (fun t x y => nth ((t * X + x) * Y + y) v_pred 0%float)
                       D_array (gradient_axis0 D_array h) (gradient_axis1 D_array h) t)
                    X Y (Dynamics.elecpos dyn) t ph))
      by (intros t a; apply time_step_runs; assumption).
    eexists; reflexivity.
Qed.

Lemma mat_build_ext (r c : nat) (f g : nat -> nat -> float) :
  (forall i j, i < r -> j < c -> f i j = g i j) ->
  mat_build r c f = mat_build r c g.
Proof.
  intros H. unfold mat_build. apply map_ext_in. intros i Hi.
  apply map_ext_in. intros j Hj. apply in_seq in Hi, Hj. apply H; lia.
Qed.

(** X10. The potential of an electrode depends on that electrode alone: two
    runs on the same trainer and prediction that differ only in the list of
    electrodes give, at every time step, the same potential for any two
    columns that hold the same coordinates (so neither the other electrodes
    nor the position in the list matter, and duplicates give equal rows). *)
Theorem electrode_potential_is_independent (p : PINN) (el' : list (Z * Z))
    (v_pred : list float) (phie phie' : matrix) (k k' t : nat) (e : Z * Z) :
  num_integration p v_pred = inr phie ->
  num_integration (with_elecpos el' p) v_pred = inr phie' ->
  nth_error (Dynamics.elecpos (dynamics p)) k = Some e ->
  nth_error el' k' = Some e ->
  t < Dynamics.max_t (dynamics p) ->
  mat_get phie k t = mat_get phie' k' t.
Proof.
  intros Hrun Hrun' Hk Hk' Ht.
  destruct (num_integration_returns p v_pred phie Hrun)
    as (v & h & D_array & Dx & Dy & Hv & HD & Hs & Hg & _ & _ & _ & _ & _ & Hget).
  destruct (num_integration_returns (with_elecpos el' p) v_pred phie' Hrun')
    as (v' & h' & D_array' & Dx' & Dy' & Hv' & HD' & Hs' & Hg' & _ & _ & _ & _ & _ & Hget').
  cbn [dynamics with_elecpos spacing Dynamics.D Dynamics.elecpos Dynamics.max_x
       Dynamics.max_y Dynamics.max_t] in Hv', HD', Hs', Hg', Hget'.
  rewrite Hv in Hv'. inversion Hv'; subst v'.
  rewrite HD in HD'. inversion HD'; subst D_array'.
  rewrite Hs in Hs'. inversion Hs'; subst h'.
  rewrite Hg in Hg'. inversion Hg'; subst Dx' Dy'.
  assert (Hlen : k < List.length (Dynamics.elecpos (dynamics p)))
    by (apply nth_error_Some; rewrite Hk; discriminate).
  assert (Hlen' : k' < List.length el')
    by (apply nth_error_Some; rewrite Hk'; discriminate).
  rewrite (Hget k t Hlen Ht), (Hget' k' t Hlen' Ht).
  rewrite (nth_error_nth _ _ _ Hk), (nth_error_nth _ _ _ Hk'). reflexivity.
Qed.

Lemma electrode_potential_is_independent_witness :
  mat_get [[nan]] 0 0 = mat_get [[(-0)%float]; [nan]] 1 0.
Proof.
  apply (electrode_potential_is_independent
           (with_spacing 1 (__init__ sample_dynamics 2 false None))
           [(0, 0)%Z; (2, 2)%Z] uniform_field
           [[nan]] [[(-0)%float]; [nan]] 0 1 0 (2, 2)%Z).
  - vm_compute. reflexivity.
  - vm_compute. reflexivity.
  - reflexivity.
  - reflexivity.
  - cbn. lia.
Defined.

Lemma reshape3_returns (T X Y : nat) (v_pred : list float)
    (v : nat -> nat -> nat -> float) :
  reshape3 T X Y v_pred = inr v ->
  v = fun t x y => nth ((t * X + x) * Y + y) v_pred 0%float.
Proof.
  unfold reshape3. destruct (List.length v_pred =? T * X * Y); [|discriminate].
  intros H; inversion H; reflexivity.
Qed.

(** X11. The potential at a time step depends on the prediction at that
    time step alone: two predictions that agree on the frame of time step
    [t] give, on the same trainer, the same potential at [t] for every
    electrode, whatever they hold at the other time steps. *)
Theorem potential_is_local_in_time (p : PINN) (v1 v2 : list float)
    (phie1 phie2 : matrix) (k t : nat) :
  let X := Dynamics.max_x (dynamics p) in
  let Y := Dynamics.max_y (dynamics p) in
  num_integration p v1 = inr phie1 ->
  num_integration p v2 = inr phie2 ->
  (forall x y, x < X -> y < Y ->
     nth ((t * X + x) * Y + y) v1 0%float = nth ((t * X + x) * Y + y) v2 0%float) ->
  k < List.length (Dynamics.elecpos (dynamics p)) ->
  t < Dynamics.max_t (dynamics p) ->
  mat_get phie1 k t = mat_get phie2 k t.
Proof.
  intros X Y Hrun1 Hrun2 Hframe Hk Ht.
  destruct (num_integration_returns p v1 phie1 Hrun1)
    as (f1 & h & D_array & Dx & Dy & Hv1 & HD & Hs & Hg & _ & _ & _ & _ & _ & Hget1).
  destruct (num_integration_returns p v2 phie2 Hrun2)
    as (f2 & h' & D_array' & Dx' & Dy' & Hv2 & HD' & Hs' & Hg' & _ & _ & _ & _ & _ & Hget2).
  rewrite HD in HD'. inversion HD'; subst D_array'.
  rewrite Hs in Hs'. inversion Hs'; subst h'.
  rewrite Hg in Hg'. inversion Hg'; subst Dx' Dy'.
  apply reshape3_returns in Hv1, Hv2.
  rewrite (Hget1 k t Hk Ht), (Hget2 k t Hk Ht).
  fold X. fold Y.
  assert (Hslice : time_slice X Y f1 t = time_slice X Y f2 t).
  { unfold time_slice. apply mat_build_ext. intros x y Hx Hy.
    rewrite Hv1, Hv2. apply Hframe; assumption. }
  unfold source_at. rewrite Hslice. reflexivity.
Qed.

Lemma potential_is_local_in_time_witness :
  mat_get [[(-38.89449880527664)%float; (-77.788997610553281)%float]] 0 0
  = mat_get [[(-38.89449880527664)%float; (-194.47249402638317)%float]] 0 0.
Proof.
  apply (potential_is_local_in_time
           (with_spacing 1 (__init__ two_step_dynamics 2 false None))
           (ramp 1 ++ ramp 2) (ramp 1 ++ ramp 5)).
  - vm_compute. reflexivity.
  - vm_compute. reflexivity.
  - intros x y Hx Hy. cbn in Hx, Hy.
    assert (H16 : (0 * 4 + x) * 4 + y < 16) by lia.
    rewrite !app_nth1 by (unfold ramp; rewrite length_map, length_seq; exact H16).
    reflexivity.
  - cbn. lia.
  - cbn. lia.
Defined.

(** ** Configuration, once more *)

(** X12. [modify_2d_const] can be applied again without effect, and it never
    touches the problem description, the limits of the stabilisation, the
    warmup epochs or the number of test points. *)
Theorem modify_2d_const_idempotent (p : PINN) :
  modify_2d_const (modify_2d_const p) = modify_2d_const p
  /\ dynamics (modify_2d_const p) = dynamics p
  /\ dim (modify_2d_const p) = dim p
  /\ heter (modify_2d_const p) = heter p
  /\ inverse (modify_2d_const p) = inverse p
  /\ num_test (modify_2d_const p) = num_test p
  /\ MAX_MODEL_INIT (modify_2d_const p) = MAX_MODEL_INIT p
  /\ MAX_LOSS (modify_2d_const p) = MAX_LOSS p
  /\ epochs_init (modify_2d_const p) = epochs_init p.
Proof.
  destruct p as [dy d h inv ? ? ? ? ? ? ? ? ? ? ? ? ? ? ? ?].
  destruct d as [|[q|[q|q|]|]|q], h, inv as [[|a s]|];
    vm_compute; repeat split; reflexivity.
Qed.

(** X13. Whatever the configuration, supported or not, the first engine call
    of [define_pinn] on a trainer as constructed builds the network with
    tanh activation and Glorot-uniform initialisation, of widths
    [3, 60 x 5, 3] in 2D and [2, 32 x 4, 3] otherwise; the output width is 3
    also for a heterogeneous trainer. *)
Theorem network_of_constructed_trainer (dyn : Dynamics.t) (d : Z) (h : bool)
    (inv : option string) (g i o : handle) :
  hd_error (trace (snd (define_pinn g i o (mkWorld (__init__ dyn d h inv) []))))
  = Some (FNN (if (d =? 2)%Z then [3; 60; 60; 60; 60; 60; 3]%Z
               else [2; 32; 32; 32; 32; 3]%Z)
              "tanh" "Glorot uniform").
Proof.
  rewrite init_closed_form. run_monad.
  destruct (d =? 1)%Z eqn:H1.
  - assert (H2 : (d =? 2)%Z = false)
      by (apply Z.eqb_eq in H1; subst d; reflexivity).
    rewrite H2. reflexivity.
  - destruct (d =? 2)%Z eqn:H2; cbn [andb]; [|reflexivity].
    destruct h; cbn [andb negb]; [destruct (inverse_has_d inv)|]; reflexivity.
Qed.

Lemma string_length_append (s t : string) :
  String.length (s ++ t)%string = String.length s + String.length t.
Proof. induction s as [|c s IH]; cbn; [reflexivity|rewrite IH; reflexivity]. Qed.

Lemma append_cancel_r (t s s' : string) :
  (s ++ t)%string = (s' ++ t)%string -> s = s'.
Proof.
  revert s'. induction s as [|c s IH]; intros [|c' s'] H; cbn in H.
  - reflexivity.
  - exfalso. apply (f_equal String.length) in H. cbn in H.
    rewrite string_length_append in H. lia.
  - exfalso. apply (f_equal String.length) in H. cbn in H.
    rewrite string_length_append in H. lia.
  - inversion H; subst. f_equal. apply IH. assumption.
Qed.

(** X14. The file of the variable tracker determines the inverse flag: two
    flags with the same file name are the same flag, so trainers with
    different inverse flags never write to the same file. *)
Theorem variables_file_determines_flag (s s' : string) :
  variables_file (Some s) = variables_file (Some s') -> s = s'.
Proof.
  unfold variables_file. intros H.
  apply (append_cancel_r ".dat").
  cbn in H. inversion H. reflexivity.
Qed.

Lemma variables_file_determines_flag_witness :
  "ad" = "ad".
Proof.
  apply (variables_file_determines_flag "ad" "ad"). reflexivity.
Defined.
